(** * Kochi Metro induction planner: the evaluation and allocation engine

    A shallow embedding of [streamlit_induction_app.py]: the date parsing of
    line 61, the function [evaluate] (lines 64-119) and the module-level
    rank-and-assign code (lines 130-142), with the properties the
    specification states about them.

    Conventions of the model.
    - A pandas frame is the list of its rows, in index order.
    - A Python float is a real number or NaN ([pyfloat]): a score is the
      number the formula gives before rounding, and the infinities are
      not modelled.  Where a float and a real may take different
      branches, as at the test of line 73 on a deviation that is zero,
      the statements keep to rosters on which they agree
      ([whole_numbers]).  The one exception the arithmetic of [evaluate]
      raises, the [OverflowError] of an [int] too large for a float, is
      modelled ([fits_float]).  Integers are [Z].
    - A Python exception is the [Raise] branch of [result].
    - Timestamps are integers (any fixed unit); NaT is [None]. *)

From Stdlib Require Import ZArith List String Ascii Bool Arith Lia DecimalString.
From Stdlib Require Import Reals Lra Permutation Sorted.
Import ListNotations.

Local Open Scope string_scope.
Local Open Scope list_scope.

(** ** Exceptions *)

Inductive exn : Type := ValueError | TypeError | KeyError | OverflowError.

Inductive result (A : Type) : Type :=
| Ok (a : A)
| Raise (e : exn).

Arguments Ok {A} a.
Arguments Raise {A} e.

Definition bind {A B : Type} (m : result A) (k : A -> result B) : result B :=
  match m with
  | Ok a => k a
  | Raise e => Raise e
  end.

Notation "x <- m ;; k" := (bind m (fun x => k))
  (at level 61, m at next level, right associativity).

(** ** Python floats *)

Inductive pyfloat : Type :=
| Fin (x : R)
| NaN.

Definition fsub (a b : pyfloat) : pyfloat :=
  match a, b with
  | Fin x, Fin y => Fin (x - y)
  | _, _ => NaN
  end.

Definition fmul (a b : pyfloat) : pyfloat :=
  match a, b with
  | Fin x, Fin y => Fin (x * y)
  | _, _ => NaN
  end.

Definition fdiv (a b : pyfloat) : pyfloat :=
  match a, b with
  | Fin x, Fin y => Fin (x / y)
  | _, _ => NaN
  end.

(** [a < b] on floats: false as soon as one side is NaN. *)
Definition flt (a b : pyfloat) : Prop :=
  match a, b with
  | Fin x, Fin y => (x < y)%R
  | _, _ => False
  end.

(** [x or 1]: a float is falsy exactly when it is zero, so NaN is kept. *)
Definition or_1 (x : pyfloat) : pyfloat :=
  match x with
  | Fin v => if Req_dec_T v 0 then Fin 1 else Fin v
  | NaN => NaN
  end.

(** ** Cells of the numeric roster columns

    What [read_csv] leaves in a cell of [branding_priority] or
    [mileage_last_week]: an integer of an int64 column, a float (NaN for
    an empty cell), or the text of the cell when the column could not be
    read as numbers. *)

Inductive cell : Type :=
| CInt (z : Z)
| CFloat (f : pyfloat)
| CStr (s : string).

(** [pd.isna] *)
Definition isna (c : cell) : bool :=
  match c with
  | CFloat NaN => true
  | _ => false
  end.

(** *** [int()] *)

(** The whitespace [int()] skips around an ASCII literal: the space and
    the characters 9 to 13. *)
Definition is_space (c : ascii) : bool :=
  let n := nat_of_ascii c in
  (n =? 32)%nat || ((9 <=? n)%nat && (n <=? 13)%nat).

Definition digit_of (c : ascii) : option Z :=
  let n := nat_of_ascii c in
  if ((48 <=? n)%nat && (n <=? 57)%nat)%bool then Some (Z.of_nat (n - 48)) else None.

Fixpoint lstrip (l : list ascii) : list ascii :=
  match l with
  | c :: t => if is_space c then lstrip t else l
  | [] => []
  end.

Definition strip (l : list ascii) : list ascii :=
  rev (lstrip (rev (lstrip l))).

(** Decimal digits, a single underscore allowed between two digits. *)
Fixpoint digits_value (acc : Z) (after_digit : bool) (l : list ascii) : option Z :=
  match l with
  | [] => if after_digit then Some acc else None
  | c :: t =>
      match digit_of c with
      | Some d => digits_value (10 * acc + d) true t
      | None =>
          if (Ascii.eqb c "_" && after_digit)%bool
          then match t with
               | [] => None
               | _ => digits_value acc false t
               end
          else None
      end
  end.

(** [int(s)] for a [str]: ASCII decimal literals, as Python reads them
    (surrounding whitespace, an optional sign, digits).  Any other ASCII
    text is a [ValueError].  Two things [int()] does are not followed
    here, and nothing below relies on this function where they matter:
    text with characters beyond ASCII is refused, though [int()] reads
    the decimal digits and spaces of other scripts; and a literal of any
    length is read, though Python 3.11 and later refuse more than 4300
    digits (see [convertible]). *)
Definition int_of_text (s : string) : result Z :=
  let body := strip (list_ascii_of_string s) in
  let '(neg, ds) :=
    match body with
    | c :: t =>
        if Ascii.eqb c "-" then (true, t)
        else if Ascii.eqb c "+" then (false, t)
        else (false, body)
    | [] => (false, body)
    end in
  match digits_value 0 false ds with
  | Some v => Ok (if neg then (- v)%Z else v)
  | None => Raise ValueError
  end.

(** The integers that have a float: beyond them the conversion raises
    [OverflowError].  The largest float is [2^1024 - 2^971], and the
    integers up to half a step above it round down to it. *)
Definition fits_float (z : Z) : bool := (Z.abs z <? 2 ^ 1024 - 2 ^ 970)%Z.

(** An [int] where float arithmetic needs a float. *)
Definition float_of_int (z : Z) : result pyfloat :=
  if fits_float z then Ok (Fin (IZR z)) else Raise OverflowError.

(** [int(x)] for a float: truncation toward zero. *)
Definition trunc (x : R) : Z :=
  if Rle_dec 0 x then Int_part x else (- Int_part (- x))%Z.

(** [int(x)] on a cell.  Of the floats only NaN is refused here: the
    infinities, which [int()] refuses with [OverflowError], are not in
    the model. *)
Definition py_int (c : cell) : result Z :=
  match c with
  | CInt z => Ok z
  | CFloat (Fin x) => Ok (trunc x)
  | CFloat NaN => Raise ValueError
  | CStr s => int_of_text s
  end.

(** ** Tables *)

Module Roster.
(** One row of the trainsets frame, with the defaults of lines 56-59
    filled in.  [D] is what a [fitness_valid_until] cell holds: a raw
    [date_cell] as read, a timestamp or NaT after line 61. *)
Record row (D : Type) : Type := {
  train_id : string;
  fitness_valid_until : D;
  job_card_open : bool;
  branding_priority : cell;
  mileage_last_week : cell;
  needs_cleaning : bool;
  bay_position : option Z
}.
Arguments train_id {D} _.
Arguments fitness_valid_until {D} _.
Arguments job_card_open {D} _.
Arguments branding_priority {D} _.
Arguments mileage_last_week {D} _.
Arguments needs_cleaning {D} _.
Arguments bay_position {D} _.
End Roster.

(** A [fitness_valid_until] cell before line 61. *)
Inductive date_cell : Type :=
| DStamp (t : Z)
| DText (s : string)
| DMissing.

(** A roster row as [evaluate] receives it. *)
Definition Train : Type := Roster.row (option Z).

Module Evaluated.
(** One row of the frame [evaluate] returns (the dict of lines 110-118). *)
Record row : Type := {
  train_id : string;
  eligible : bool;
  score : pyfloat;
  reason : string;
  branding_priority : Z;
  mileage_last_week : pyfloat;
  bay_position : option Z
}.
End Evaluated.

(** The job-card frame: rows of [(train_id, severity)], or of [train_id]
    alone when the frame has no [severity] column. *)
Inductive JobCards : Type :=
| WithSeverity (rows : list (string * string))
| WithoutSeverity (train_ids : list string).

(** The cleaning-slot frame: its [available] column, when it has one. *)
Record CleaningSlots : Type := {
  available : option (list bool)
}.

(** [job_cards["train_id"].values] *)
Definition job_train_ids (jc : JobCards) : list string :=
  match jc with
  | WithSeverity rows => map fst rows
  | WithoutSeverity ids => ids
  end.

(** [x in values] *)
Definition isin (x : string) (values : list string) : bool :=
  existsb (String.eqb x) values.

(** Lines 87-91: severity of the first row with this id, or "N/A" without
    the column.  It is only called for an id that is in the frame, so
    [.iloc[0]] finds a row. *)
Definition first_severity (jc : JobCards) (tid : string) : string :=
  match jc with
  | WithSeverity rows =>
      match find (fun row => String.eqb (fst row) tid) rows with
      | Some row => snd row
      | None => ""
      end
  | WithoutSeverity _ => "N/A"
  end.

(** Lines 66-68. *)
Definition cleaning_capacity_of (cleaning_slots : option CleaningSlots) : option nat :=
  match cleaning_slots with
  | Some cs =>
      match available cs with
      | Some col => Some (List.length (filter (fun a => Bool.eqb a true) col))
      | None => None
      end
  | None => None
  end.

(** ** Column statistics *)

Definition Rsum (l : list R) : R := fold_right Rplus 0%R l.

(** The numbers a reduction runs over: NaN cells are skipped; a text cell
    makes the reduction raise (pandas 2). *)
Fixpoint numeric_values (col : list cell) : result (list R) :=
  match col with
  | [] => Ok []
  | CInt z :: t => vs <- numeric_values t ;; Ok (IZR z :: vs)
  | CFloat (Fin x) :: t => vs <- numeric_values t ;; Ok (x :: vs)
  | CFloat NaN :: t => numeric_values t
  | CStr _ :: _ => Raise TypeError
  end.

Definition mean_of (vs : list R) : R := (Rsum vs / INR (List.length vs))%R.

(** [Series.mean()] *)
Definition series_mean (col : list cell) : result pyfloat :=
  vs <- numeric_values col ;;
  Ok (match vs with
      | [] => NaN
      | _ => Fin (mean_of vs)
      end).

(** Sum of squared deviations from the mean. *)
Definition sum_sq_dev (vs : list R) : R :=
  Rsum (map (fun x => (x - mean_of vs) * (x - mean_of vs))%R vs).

(** The standard deviation with [ddof = 1] (divisor [n - 1]). *)
Definition sample_std (vs : list R) : R :=
  sqrt (sum_sq_dev vs / (INR (List.length vs) - 1)).

(** [Series.std()]: [ddof = 1] is the default, so NaN below two values. *)
Definition series_std (col : list cell) : result pyfloat :=
  vs <- numeric_values col ;;
  Ok (if (List.length vs <=? 1)%nat then NaN else Fin (sample_std vs)).

(** ** evaluate *)

Definition join_reason (reason : list string) : string :=
  match reason with
  | [] => "OK"
  | _ => String.concat "; " reason
  end.

(** The locals of the loop once the three checks of a row are done. *)
Record checked : Type := {
  c_eligible : bool;
  c_reason : list string;
  c_cleaning_used : nat
}.

(** Lines 76-102 for one row; [cleaning_used] is the counter on entry. *)
Definition check_row (today : Z) (job_cards : option JobCards)
    (cleaning_capacity : option nat) (cleaning_used : nat) (r : Train) : checked :=
  let reason : list string := [] in
  let eligible := true in
  (* Fitness *)
  let '(eligible, reason) :=
    if match Roster.fitness_valid_until r with
       | None => true
       | Some d => (d <? today)%Z
       end
    then (false, reason ++ ["Expired fitness"])
    else (eligible, reason) in
  (* Job-cards *)
  let '(eligible, reason) :=
    match job_cards with
    | Some jc =>
        if isin (Roster.train_id r) (job_train_ids jc)
        then (false,
              reason ++ [("Open job-card (" ++ first_severity jc (Roster.train_id r)
                          ++ ")")%string])
        else (eligible, reason)
    | None => (eligible, reason)
    end in
  (* Cleaning slots *)
  if Roster.needs_cleaning r then
    let reason := reason ++ ["Needs cleaning"] in
    match cleaning_capacity with
    | Some capacity =>
        if eligible then
          if (cleaning_used <? capacity)%nat
          then {| c_eligible := eligible; c_reason := reason;
                  c_cleaning_used := cleaning_used + 1 |}
          else {| c_eligible := false;
                  c_reason := reason ++ ["No cleaning slot available"];
                  c_cleaning_used := cleaning_used |}
        else {| c_eligible := eligible; c_reason := reason;
                c_cleaning_used := cleaning_used |}
    | None => {| c_eligible := eligible; c_reason := reason;
                 c_cleaning_used := cleaning_used |}
    end
  else {| c_eligible := eligible; c_reason := reason;
          c_cleaning_used := cleaning_used |}.

(** The state the loop of lines 75-118 carries from row to row. *)
Record loop_state : Type := {
  rows : list Evaluated.row;
  cleaning_used : nat
}.

Section Evaluate.

(** [float(s)] for a [str].  [evaluate] never gets there: a text cell in
    the mileage column has made [mean()] raise before the loop starts
    (see [text_mileage_raises]). *)
Variable float_of_text : string -> result pyfloat.

Definition py_float (c : cell) : result pyfloat :=
  match c with
  | CInt z => Ok (Fin (IZR z))
  | CFloat f => Ok f
  | CStr s => float_of_text s
  end.

(** Line 105. *)
Definition branding_of (r : Train) : result Z :=
  if negb (isna (Roster.branding_priority r))
  then py_int (Roster.branding_priority r)
  else Ok 0%Z.

(** Line 106. *)
Definition mileage_of (r : Train) : result pyfloat :=
  if negb (isna (Roster.mileage_last_week r))
  then py_float (Roster.mileage_last_week r)
  else Ok (Fin 0).

(** Lines 107-108.  [branding * 1000] is an [int]; to subtract a float
    from it Python converts it first, and that raises beyond the range
    of floats. *)
Definition score_of (mileage_mean mileage_std : pyfloat)
    (branding : Z) (mileage : pyfloat) : result pyfloat :=
  let norm_mileage := fdiv (fsub mileage mileage_mean) mileage_std in
  weighted <- float_of_int (branding * 1000) ;;
  Ok (fsub weighted (fmul norm_mileage (Fin 100))).

(** The body of the loop, lines 76-118. *)
Definition loop_body (today : Z) (job_cards : option JobCards)
    (cleaning_capacity : option nat) (mileage_mean mileage_std : pyfloat)
    (st : loop_state) (r : Train) : result loop_state :=
  let c := check_row today job_cards cleaning_capacity (cleaning_used st) r in
  branding <- branding_of r ;;
  mileage <- mileage_of r ;;
  score <- score_of mileage_mean mileage_std branding mileage ;;
  Ok {| rows := rows st ++
                [ {| Evaluated.train_id := Roster.train_id r;
                     Evaluated.eligible := c_eligible c;
                     Evaluated.score := score;
                     Evaluated.reason := join_reason (c_reason c);
                     Evaluated.branding_priority := branding;
                     Evaluated.mileage_last_week := mileage;
                     Evaluated.bay_position := Roster.bay_position r |} ];
        cleaning_used := c_cleaning_used c |}.

Fixpoint iterrows (today : Z) (job_cards : option JobCards)
    (cleaning_capacity : option nat) (mileage_mean mileage_std : pyfloat)
    (st : loop_state) (df : list Train) : result loop_state :=
  match df with
  | [] => Ok st
  | r :: rest =>
      st' <- loop_body today job_cards cleaning_capacity mileage_mean mileage_std st r ;;
      iterrows today job_cards cleaning_capacity mileage_mean mileage_std st' rest
  end.

(** Lines 65-70: the locals a call starts from. *)
Definition initial_state : loop_state := {| rows := []; cleaning_used := 0 |}.

(** Lines 64-119. *)
Definition evaluate (df : list Train) (today : Z)
    (job_cards : option JobCards) (cleaning_slots : option CleaningSlots)
    : result (list Evaluated.row) :=
  let cleaning_capacity := cleaning_capacity_of cleaning_slots in
  mileage_mean <- series_mean (map Roster.mileage_last_week df) ;;
  std <- series_std (map Roster.mileage_last_week df) ;;
  let mileage_std := or_1 std in
  st <- iterrows today job_cards cleaning_capacity mileage_mean mileage_std
          initial_state df ;;
  Ok (rows st).

End Evaluate.

(** ** Date parsing (line 61) *)

Section Normalize.

(** The date parser of pandas on the text of a cell: [None] when the text
    is not a date. *)
Variable parse_datetime : string -> option Z.

(** [pd.to_datetime(_, errors="coerce")] on one cell. *)
Definition to_datetime_coerce (c : date_cell) : option Z :=
  match c with
  | DStamp t => Some t
  | DText s => parse_datetime s
  | DMissing => None
  end.

(** Line 61 on the whole frame. *)
Definition parse_fitness (df : list (Roster.row date_cell)) : list Train :=
  map (fun r =>
         {| Roster.train_id := Roster.train_id r;
            Roster.fitness_valid_until :=
              to_datetime_coerce (Roster.fitness_valid_until r);
            Roster.job_card_open := Roster.job_card_open r;
            Roster.branding_priority := Roster.branding_priority r;
            Roster.mileage_last_week := Roster.mileage_last_week r;
            Roster.needs_cleaning := Roster.needs_cleaning r;
            Roster.bay_position := Roster.bay_position r |}) df.

End Normalize.

(** ** Rank and assign (lines 130-142) *)

Inductive assignment : Type := Service | Standby | Maintenance_Blocked.

Module Plan.
Record row : Type := {
  evaluated : Evaluated.row;
  assignment : assignment
}.
End Plan.

(** [evaluated["eligible"]].  [pd.DataFrame(rows)] of an empty list of
    dicts is a frame without columns, so the lookup raises. *)
Definition eligible_column (evaluated : list Evaluated.row) : result (list bool) :=
  match evaluated with
  | [] => Raise KeyError
  | _ => Ok (map Evaluated.eligible evaluated)
  end.

(** [df[mask]] *)
Fixpoint select {A : Type} (df : list A) (mask : list bool) : list A :=
  match df, mask with
  | r :: df', b :: mask' => if b then r :: select df' mask' else select df' mask'
  | _, _ => []
  end.

(** A slice bound of Python, clipped to the length. *)
Definition clip (len : nat) (i : Z) : nat :=
  if (i <? 0)%Z then Z.to_nat (Z.max 0 (Z.of_nat len + i))
  else Nat.min (Z.to_nat i) len.

(** [df.iloc[start:stop]] *)
Definition iloc {A : Type} (df : list A) (start stop : Z) : list A :=
  let a := clip (List.length df) start in
  let b := clip (List.length df) stop in
  firstn (b - a) (skipn a df).

(** [df.iloc[start:]] *)
Definition iloc_from {A : Type} (df : list A) (start : Z) : list A :=
  skipn (clip (List.length df) start) df.

(** [df.head(n)], which pandas defines as [df.iloc[:n]]. *)
Definition head {A : Type} (df : list A) (n : Z) : list A :=
  iloc df 0 n.

(** [df["assignment"] = a] *)
Definition assign (a : assignment) (df : list Evaluated.row) : list Plan.row :=
  map (fun r => {| Plan.evaluated := r; Plan.assignment := a |}) df.

Record Allocation : Type := {
  service : list Plan.row;
  standby : list Plan.row;
  remaining : list Plan.row
}.

(** Line 142. *)
Definition plan (a : Allocation) : list Plan.row :=
  service a ++ standby a ++ remaining a.

Section Allocate.

(** [sort_values(by=["score"], ascending=False)].  The default sort of
    pandas is not stable, so the order of equal scores is left open: all
    that is used is that sorting permutes the rows. *)
Variable sort_values : list Evaluated.row -> list Evaluated.row.

(** Lines 130-140. *)
Definition rank_and_assign (evaluated : list Evaluated.row)
    (required_service_count standby_count : Z) : result Allocation :=
  mask <- eligible_column evaluated ;;
  let eligible_df := sort_values (select evaluated mask) in
  let ineligible_df := select evaluated (map negb mask) in
  let service := assign Service (head eligible_df required_service_count) in
  let standby :=
    assign Standby
      (iloc eligible_df required_service_count
         (required_service_count + standby_count)) in
  let remaining :=
    assign Maintenance_Blocked
      (iloc_from eligible_df (required_service_count + standby_count)
       ++ ineligible_df) in
  Ok {| service := service; standby := standby; remaining := remaining |}.

End Allocate.

(** ** Reading a reason *)

(** [needle in hay] on strings. *)
Fixpoint contains (needle hay : string) : bool :=
  String.prefix needle hay ||
  match hay with
  | EmptyString => false
  | String _ t => contains needle t
  end.

(** * Notions used in the statements *)

(** The counter after the loop has gone through [df], from [used]. *)
Definition used_after (today : Z) (job_cards : option JobCards)
    (cleaning_capacity : option nat) (used : nat) (df : list Train) : nat :=
  fold_left
    (fun u r => c_cleaning_used (check_row today job_cards cleaning_capacity u r))
    df used.

(** The counter when the loop reaches row [i] of a call. *)
Definition used_before (today : Z) (job_cards : option JobCards)
    (cleaning_capacity : option nat) (df : list Train) (i : nat) : nat :=
  used_after today job_cards cleaning_capacity 0 (firstn i df).

(** A cell that holds text. *)
Definition is_text (c : cell) : bool :=
  match c with CStr _ => true | _ => false end.

(** The number lines 107-108 give when the conversion goes through. *)
Definition score_value (mileage_mean mileage_std : pyfloat)
    (branding : Z) (mileage : pyfloat) : pyfloat :=
  fsub (Fin (IZR (branding * 1000)))
    (fmul (fdiv (fsub mileage mileage_mean) mileage_std) (Fin 100)).

(** [o] is the dict lines 104-118 build for row [r] whose checks left
    the locals [c]. *)
Definition emitted (float_of_text : string -> result pyfloat)
    (mileage_mean mileage_std : pyfloat)
    (r : Train) (c : checked) (o : Evaluated.row) : Prop :=
  Evaluated.train_id o = Roster.train_id r /\
  Evaluated.eligible o = c_eligible c /\
  Evaluated.reason o = join_reason (c_reason c) /\
  branding_of r = Ok (Evaluated.branding_priority o) /\
  mileage_of float_of_text r = Ok (Evaluated.mileage_last_week o) /\
  score_of mileage_mean mileage_std
    (Evaluated.branding_priority o) (Evaluated.mileage_last_week o)
    = Ok (Evaluated.score o) /\
  Evaluated.bay_position o = Roster.bay_position r.

(** Line 80. *)
Definition fitness_expired (today : Z) (r : Train) : bool :=
  match Roster.fitness_valid_until r with
  | None => true
  | Some d => (d <? today)%Z
  end.

(** Line 85. *)
Definition has_job_card (job_cards : option JobCards) (r : Train) : bool :=
  match job_cards with
  | Some jc => isin (Roster.train_id r) (job_train_ids jc)
  | None => false
  end.

(** A cleaning slot is there for the taking: no capacity limit is known,
    or the counter is still below it (line 98). *)
Definition slot_available (cleaning_capacity : option nat) (used : nat) : bool :=
  match cleaning_capacity with
  | Some capacity => (used <? capacity)%nat
  | None => true
  end.

(** A cell [float()] converts: a number that has a float, or a missing
    value. *)
Definition numeric_cell (c : cell) : bool :=
  match c with
  | CInt z => fits_float z
  | CFloat _ => true
  | CStr _ => false
  end.

(** The digits [int()] reads in a literal: Python 3.11 and later refuse
    more. *)
Definition max_str_digits : nat := 4300.

(** The row has numbers where line 72 and lines 105-108 need them.  The
    branding is missing or is something [int()] accepts, text no longer
    than the digit limit included, and a thousand times it has a float;
    the mileage is missing or a number that has a float. *)
Definition convertible (r : Train) : bool :=
  match branding_of r with
  | Ok branding => fits_float (branding * 1000)
  | Raise _ => false
  end
  && match Roster.branding_priority r with
     | CStr s => (String.length s <=? max_str_digits)%nat
     | _ => true
     end
  && numeric_cell (Roster.mileage_last_week r).

(** The locals of the loop after the checks of each row, from the counter
    [used]. *)
Fixpoint checks (today : Z) (job_cards : option JobCards)
    (cleaning_capacity : option nat) (used : nat) (df : list Train) : list checked :=
  match df with
  | [] => []
  | r :: rest =>
      let c := check_row today job_cards cleaning_capacity used r in
      c :: checks today job_cards cleaning_capacity (c_cleaning_used c) rest
  end.

(** The [eligible] flags the loop computes. *)
Definition eligibility (today : Z) (job_cards : option JobCards)
    (cleaning_capacity : option nat) (used : nat) (df : list Train) : list bool :=
  map c_eligible (checks today job_cards cleaning_capacity used df).


(** How many rows with [needs_cleaning] carry a true flag. *)
Definition count_needing (df : list Train) (flags : list bool) : nat :=
  List.length
    (filter (fun p => Roster.needs_cleaning (fst p) && snd p) (combine df flags)).

(** The number of eligible trains of the output that need cleaning. *)
Definition eligible_needing_cleaning (df : list Train) (out : list Evaluated.row) : nat :=
  count_needing df (map Evaluated.eligible out).

(** The slots taken when the loop reaches row [i], read off the output:
    the trains before it that need cleaning and came out eligible. *)
Definition slots_taken_before (df : list Train) (out : list Evaluated.row)
    (i : nat) : nat :=
  eligible_needing_cleaning (firstn i df) (firstn i out).


(** The reasons the fitness and job-card checks give a row (lines
    80-92). *)
Definition blocking_reasons (today : Z) (job_cards : option JobCards)
    (r : Train) : list string :=
  (if fitness_expired today r then ["Expired fitness"] else [])
  ++ match job_cards with
     | Some jc =>
         if isin (Roster.train_id r) (job_train_ids jc)
         then [("Open job-card (" ++ first_severity jc (Roster.train_id r)
                ++ ")")%string]
         else []
     | None => []
     end.

(** The sentence of the specification on trains met after the capacity is
    used up, for every train that needs cleaning. *)
Definition beyond_capacity_as_stated : Prop :=
  forall (float_of_text : string -> result pyfloat)
         (df : list Train) (today : Z) (job_cards : option JobCards)
         (cleaning_slots : option CleaningSlots) (out : list Evaluated.row)
         (capacity i : nat) (r : Train) (o : Evaluated.row),
    evaluate float_of_text df today job_cards cleaning_slots = Ok out ->
    cleaning_capacity_of cleaning_slots = Some capacity ->
    nth_error df i = Some r ->
    nth_error out i = Some o ->
    Roster.needs_cleaning r = true ->
    (capacity <= used_before today job_cards (Some capacity) df i)%nat ->
    Evaluated.eligible o = false /\
    contains "Needs cleaning" (Evaluated.reason o) = true /\
    contains "No cleaning slot available" (Evaluated.reason o) = true.










(** The row with its [job_card_open] cell overwritten. *)
Definition with_job_card_open (b : bool) (r : Train) : Train :=
  {| Roster.train_id := Roster.train_id r;
     Roster.fitness_valid_until := Roster.fitness_valid_until r;
     Roster.job_card_open := b;
     Roster.branding_priority := Roster.branding_priority r;
     Roster.mileage_last_week := Roster.mileage_last_week r;
     Roster.needs_cleaning := Roster.needs_cleaning r;
     Roster.bay_position := Roster.bay_position r |}.

(** * Worked inputs *)

(** [float()] on text, for the runs below: it is never called. *)
Definition no_float_of_text (s : string) : result pyfloat := Raise ValueError.

Definition train (id : string) (fitness : option Z) (branding mileage : cell)
    (needs_cleaning : bool) : Train :=
  {| Roster.train_id := id;
     Roster.fitness_valid_until := fitness;
     Roster.job_card_open := false;
     Roster.branding_priority := branding;
     Roster.mileage_last_week := mileage;
     Roster.needs_cleaning := needs_cleaning;
     Roster.bay_position := None |}.

Definition evaluated_row (id : string) (eligible : bool) (score : pyfloat)
    (reason : string) (branding : Z) (mileage : pyfloat) : Evaluated.row :=
  {| Evaluated.train_id := id;
     Evaluated.eligible := eligible;
     Evaluated.score := score;
     Evaluated.reason := reason;
     Evaluated.branding_priority := branding;
     Evaluated.mileage_last_week := mileage;
     Evaluated.bay_position := None |}.

(** The score line 108 gives a row of a roster whose mileage values are
    [vs] (two at least). *)
Definition score_in (vs : list R) (branding : Z) (mileage : R) : pyfloat :=
  score_value (Fin (mean_of vs)) (or_1 (Fin (sample_std vs))) branding (Fin mileage).

(** The scenario of the specification: the reference date is day 10, T1
    is fit until day 20, the fitness of T2 ended on day 5. *)
Definition T1 : Train := train "T1" (Some 20%Z) (CInt 5) (CInt 1000) false.
Definition T2 : Train := train "T2" (Some 5%Z) (CInt 0) (CInt 100) false.

Definition T1_out : Evaluated.row :=
  evaluated_row "T1" true (score_in [1000; 100]%R 5 1000) "OK" 5 (Fin 1000).
Definition T2_out : Evaluated.row :=
  evaluated_row "T2" false (score_in [1000; 100]%R 0 100) "Expired fitness" 0 (Fin 100).

(** Two trains that need cleaning and one slot. *)
Definition T3 : Train := train "T3" (Some 20%Z) (CInt 1) (CInt 300) true.
Definition T4 : Train := train "T4" (Some 20%Z) (CInt 2) (CInt 500) true.
Definition one_slot : CleaningSlots := {| available := Some [true; false] |}.

Definition T3_out : Evaluated.row :=
  evaluated_row "T3" true (score_in [300; 500]%R 1 300) "Needs cleaning" 1 (Fin 300).
Definition T4_out : Evaluated.row :=
  evaluated_row "T4" false (score_in [300; 500]%R 2 500)
    "Needs cleaning; No cleaning slot available" 2 (Fin 500).

(** A train that needs cleaning and whose fitness has expired, with no
    slot at all. *)
Definition T5 : Train := train "T5" (Some 5%Z) (CInt 1) (CInt 300) true.
Definition no_slot : CleaningSlots := {| available := Some [false] |}.
Definition T5_out : Evaluated.row :=
  evaluated_row "T5" false NaN "Expired fitness; Needs cleaning" 1 (Fin 300).

(** Missing values, and text where a number is expected. *)
Definition T6 : Train := train "T6" (Some 20%Z) (CFloat NaN) (CFloat NaN) false.

(** With T1 behind it, T6 leaves one mileage value in the column: the
    deviation is NaN and so are the scores. *)
Definition T6_out : Evaluated.row :=
  evaluated_row "T6" true NaN "OK" 0 (Fin 0).
Definition T1_out_after_T6 : Evaluated.row :=
  evaluated_row "T1" true NaN "OK" 5 (Fin 1000).

(** Equal mileage with different branding, equal branding with different
    mileage. *)
Definition A1 : Train := train "A1" (Some 20%Z) (CInt 5) (CInt 100) false.
Definition A2 : Train := train "A2" (Some 20%Z) (CInt 0) (CInt 100) false.
Definition A3 : Train := train "A3" (Some 20%Z) (CInt 0) (CInt 300) false.

Definition A1_out : Evaluated.row :=
  evaluated_row "A1" true (score_in [100; 100; 300]%R 5 100) "OK" 5 (Fin 100).
Definition A2_out : Evaluated.row :=
  evaluated_row "A2" true (score_in [100; 100; 300]%R 0 100) "OK" 0 (Fin 100).
Definition A3_out : Evaluated.row :=
  evaluated_row "A3" true (score_in [100; 100; 300]%R 0 300) "OK" 0 (Fin 300).

(** A1 and A2 alone: the two mileages are equal. *)
Definition A1_out_pair : Evaluated.row :=
  evaluated_row "A1" true (score_in [100; 100]%R 5 100) "OK" 5 (Fin 100).
Definition A2_out_pair : Evaluated.row :=
  evaluated_row "A2" true (score_in [100; 100]%R 0 100) "OK" 0 (Fin 100).

(** Mileages 0 and 2: mean 1, sample deviation sqrt 2, population
    deviation 1. *)
Definition Z0 : Train := train "Z0" (Some 20%Z) (CInt 0) (CInt 0) false.
Definition Z2 : Train := train "Z2" (Some 20%Z) (CInt 0) (CInt 2) false.

Definition Z0_out : Evaluated.row :=
  evaluated_row "Z0" true (score_in [0; 2]%R 0 0) "OK" 0 (Fin 0).
Definition Z2_out : Evaluated.row :=
  evaluated_row "Z2" true (score_in [0; 2]%R 0 2) "OK" 0 (Fin 2).

(** A date parser for the runs below: a day number, nothing else. *)
Definition parse_day_number (s : string) : option Z :=
  match int_of_text s with
  | Ok d => Some d
  | Raise _ => None
  end.

Definition raw_train (id : string) (fitness : date_cell) : Roster.row date_cell :=
  {| Roster.train_id := id;
     Roster.fitness_valid_until := fitness;
     Roster.job_card_open := false;
     Roster.branding_priority := CInt 1;
     Roster.mileage_last_week := CInt 400;
     Roster.needs_cleaning := false;
     Roster.bay_position := None |}.

Definition R1 : Roster.row date_cell := raw_train "R1" (DText "20").
Definition R2 : Roster.row date_cell := raw_train "R2" (DText "next week").

(** A sort for the runs below, by insertion: descending score, NaN last;
    rows of equal score come out in the reverse of their input order. *)
Definition score_geb (a b : Evaluated.row) : bool :=
  match Evaluated.score a, Evaluated.score b with
  | Fin x, Fin y => if Rle_dec y x then true else false
  | Fin _, NaN => true
  | NaN, Fin _ => false
  | NaN, NaN => true
  end.

Fixpoint insert_by_score (r : Evaluated.row) (l : list Evaluated.row)
    : list Evaluated.row :=
  match l with
  | [] => [r]
  | x :: t => if score_geb x r then x :: insert_by_score r t else r :: l
  end.

Definition sort_by_score (l : list Evaluated.row) : list Evaluated.row :=
  fold_right insert_by_score [] l.

(** * The rest of the script *)

(** ** Ranking and the summary *)

(** [a] may stand before [b] in a frame sorted by descending score: among
    numbers the larger first, NaN after every number. *)
Definition score_ge (a b : Evaluated.row) : Prop :=
  match Evaluated.score a, Evaluated.score b with
  | Fin x, Fin y => (y <= x)%R
  | _, NaN => True
  | NaN, Fin _ => False
  end.

(** Lines 157-159: the three numbers of the "Summary Metrics". *)
Definition summary_metrics (a : Allocation) : nat * nat * nat :=
  (List.length (service a), List.length (standby a), List.length (remaining a)).

(** ** Who competes for a cleaning slot *)

(** The row reaches line 97 with [needs_cleaning] and [eligible] both
    true. *)
Definition cleaning_candidate (today : Z) (job_cards : option JobCards)
    (r : Train) : bool :=
  Roster.needs_cleaning r && negb (fitness_expired today r)
  && negb (has_job_card job_cards r).

(** How many such rows come before row [i]. *)
Definition candidates_before (today : Z) (job_cards : option JobCards)
    (df : list Train) (i : nat) : nat :=
  List.length (filter (cleaning_candidate today job_cards) (firstn i df)).

(** One capacity leaves at least as much room as another; no known
    capacity leaves the most. *)
Definition capacity_le (c c' : option nat) : Prop :=
  match c, c' with
  | _, None => True
  | Some n, Some n' => (n <= n')%nat
  | None, Some _ => False
  end.

(** ** The what-if re-run (lines 220-225) *)

(** A cell of the parsed frame as the table editor hands it back. *)
Definition as_edited (r : Train) : Roster.row date_cell :=
  {| Roster.train_id := Roster.train_id r;
     Roster.fitness_valid_until :=
       match Roster.fitness_valid_until r with
       | Some t => DStamp t
       | None => DMissing
       end;
     Roster.job_card_open := Roster.job_card_open r;
     Roster.branding_priority := Roster.branding_priority r;
     Roster.mileage_last_week := Roster.mileage_last_week r;
     Roster.needs_cleaning := Roster.needs_cleaning r;
     Roster.bay_position := Roster.bay_position r |}.

Section WhatIf.

Variable parse_datetime : string -> option Z.
Variable float_of_text : string -> result pyfloat.
Variable sort_values : list Evaluated.row -> list Evaluated.row.

(** Lines 221-225: the "Updated Service List" and the ten rows shown
    under it. *)
Definition rerun (edited : list (Roster.row date_cell)) (today : Z)
    (job_cards : option JobCards) (cleaning_slots : option CleaningSlots)
    (required_service_count : Z)
    : result (list string * list Evaluated.row) :=
  let edited := parse_fitness parse_datetime edited in
  new_eval <- evaluate float_of_text edited today job_cards cleaning_slots ;;
  mask <- eligible_column new_eval ;;
  let new_service :=
    head (sort_values (select new_eval mask)) required_service_count in
  Ok (map Evaluated.train_id new_service, head (sort_values new_eval) 10).

End WhatIf.

(** ** Filling in missing columns (lines 46-59) *)

(** What a cell of an uploaded frame may hold. *)
Inductive pyval : Type :=
| VTime (t : option Z)
| VBool (b : bool)
| VCell (c : cell)
| VNone.

(** A frame by columns: [index_len] is [len(df)], [columns] are the
    columns in the order of [df.columns]. *)
Record Frame : Type := {
  index_len : nat;
  columns : list (string * list pyval)
}.

(** Lines 47-54, with the value of [pd.to_datetime(today_str)]. *)
Definition expected_cols (today : option Z) : list (string * pyval) :=
  [ ("fitness_valid_until", VTime today);
    ("job_card_open", VBool false);
    ("branding_priority", VCell (CInt 0));
    ("mileage_last_week", VCell (CInt 0));
    ("needs_cleaning", VBool false);
    ("bay_position", VNone) ].

(** [col in df.columns] *)
Definition has_column (col : string) (df : Frame) : bool :=
  existsb (String.eqb col) (map fst (columns df)).

(** Lines 57-59 for one column.  A warning is kept as the column and the
    default it names. *)
Definition fill_column (st : Frame * list (string * pyval))
    (entry : string * pyval) : Frame * list (string * pyval) :=
  let '(df, warnings) := st in
  let '(col, default) := entry in
  if negb (has_column col df)
  then ({| index_len := index_len df;
           columns := columns df ++ [(col, repeat default (index_len df))] |},
        warnings ++ [(col, default)])
  else (df, warnings).

(** Lines 56-59. *)
Definition fill_defaults (today : option Z) (df : Frame)
    : Frame * list (string * pyval) :=
  fold_left fill_column (expected_cols today) (df, []).

(** The entries of a schema whose column the frame lacks. *)
Definition missing_columns (schema : list (string * pyval)) (df : Frame)
    : list (string * pyval) :=
  filter (fun entry => negb (has_column (fst entry) df)) schema.

(** The columns lines 58-59 make for these entries. *)
Definition default_columns (n : nat) (entries : list (string * pyval))
    : list (string * list pyval) :=
  map (fun entry => (fst entry, repeat (snd entry) n)) entries.

(** Every column has one cell per row. *)
Definition rectangular (df : Frame) : Prop :=
  Forall (fun c => List.length (snd c) = index_len df) (columns df).

(** ** The script from upload to plan *)

Inductive stop_message : Type :=
| PleaseUploadTrainsets   (* line 34 *)
| InvalidDateFormat.      (* line 124 *)

(** How a run of the script ends: [st.stop()] after an error message, an
    uncaught exception, or the plan of line 142, which the display code
    then shows. *)
Inductive outcome : Type :=
| Stopped (m : stop_message)
| Crashed (e : exn)
| Rendered (a : Allocation).

Section Script.

(** [pd.to_datetime] on one text, as called at line 48: a timestamp, NaT,
    or an exception. *)
Variable to_datetime : string -> result (option Z).
(** The date parser on the text of a cell of the column, as in
    [to_datetime_coerce]. *)
Variable parse_datetime : string -> option Z.
Variable float_of_text : string -> result pyfloat.
Variable sort_values : list Evaluated.row -> list Evaluated.row.

(** The same with [errors="coerce"]: NaT in place of the exception. *)
Definition to_datetime_or_nat (s : string) : option Z :=
  match to_datetime s with
  | Ok t => t
  | Raise _ => None
  end.

(** Lines 31-142 on an upload that has all the roster columns. *)
Definition run_script (uploaded_trainsets : option (list (Roster.row date_cell)))
    (job_cards : option JobCards) (cleaning_slots : option CleaningSlots)
    (required_service_count standby_count : Z) (today_str : string) : outcome :=
  match uploaded_trainsets with
  | None => Stopped PleaseUploadTrainsets
  | Some df =>
      (* line 48 *)
      match to_datetime today_str with
      | Raise e => Crashed e
      | Ok _ =>
          (* line 61 *)
          let df := parse_fitness parse_datetime df in
          (* lines 122-125 *)
          match to_datetime_or_nat today_str with
          | None => Stopped InvalidDateFormat
          | Some today =>
              match
                evaluated <- evaluate float_of_text df today job_cards
                               cleaning_slots ;;
                rank_and_assign sort_values evaluated required_service_count
                  standby_count
              with
              | Ok a => Rendered a
              | Raise e => Crashed e
              end
          end
      end
  end.

End Script.

(** * The sample-data generator (generate_sample_csvs.py) *)

(** [str(i)] for a natural number. *)
Definition str_of_nat (n : nat) : string :=
  NilZero.string_of_uint (Nat.to_uint n).

Fixpoint zeros (n : nat) : string :=
  match n with
  | O => ""
  | S n' => String "0" (zeros n')
  end.

(** [s.zfill(width)] for a string of digits. *)
Definition zfill (width : nat) (s : string) : string :=
  (zeros (width - String.length s) ++ s)%string.

(** Line 15. *)
Definition n_trains : nat := 25.

(** Line 16. *)
Definition train_ids : list string :=
  map (fun i => ("TS" ++ zfill 2 (str_of_nat i))%string) (seq 1 n_trains).

(** What the random generator hands out for one train: element [i] of
    each of the arrays of lines 18-30. *)
Record TrainDraw : Type := {
  valid_draw : bool;      (* np.random.rand() < 0.7, line 21 *)
  days_draw : Z;          (* np.random.randint(1, 10) or (1, 5) *)
  open_draw : bool;       (* job_card_open[i] *)
  branding_draw : Z;      (* branding_priority[i] *)
  mileage_draw : Z;       (* mileage_last_week[i] *)
  cleaning_draw : bool;   (* needs_cleaning[i] *)
  bay_draw : Z            (* bay_position[i] *)
}.

(** Row [i] of [df_trains] (lines 18-40), dates counted in days. *)
Definition sample_train (today : Z) (tid : string) (d : TrainDraw) : Train :=
  {| Roster.train_id := tid;
     Roster.fitness_valid_until :=
       Some (if valid_draw d then today + days_draw d else today - days_draw d)%Z;
     Roster.job_card_open := open_draw d;
     Roster.branding_priority := CInt (branding_draw d);
     Roster.mileage_last_week := CInt (mileage_draw d);
     Roster.needs_cleaning := cleaning_draw d;
     Roster.bay_position := Some (bay_draw d) |}.

Definition sample_trainsets (today : Z) (draws : list TrainDraw) : list Train :=
  map (fun p => sample_train today (fst p) (snd p)) (combine train_ids draws).

(** Lines 46-53: one card [(train_id, job_card_id, severity)] for each
    train whose flag is set; [severity k] is the draw for card [k]. *)
Fixpoint sample_job_cards (severity : nat -> string) (k : nat)
    (pairs : list (string * bool)) : list (string * string * string) :=
  match pairs with
  | [] => []
  | (tid, open_flag) :: rest =>
      if open_flag
      then (tid, ("JC-" ++ tid)%string, severity k)
           :: sample_job_cards severity (S k) rest
      else sample_job_cards severity k rest
  end.

(** [df_jobs] as the planner reads it back from job_cards.csv.  When no
    flag was drawn, [pd.DataFrame([])] has no column and the file is an
    empty line, which [read_csv] refuses: there is no frame then. *)
Definition sample_job_frame (severity : nat -> string) (draws : list TrainDraw)
    : option JobCards :=
  match sample_job_cards severity 0 (combine train_ids (map open_draw draws)) with
  | [] => None
  | cards => Some (WithSeverity (map (fun card => (fst (fst card), snd card)) cards))
  end.

(** * More worked inputs *)

(** An eligible row with a numeric score and one with a NaN score. *)
Definition P1_out : Evaluated.row := evaluated_row "P1" true (Fin 5000) "OK" 5 (Fin 0).
Definition P2_out : Evaluated.row := evaluated_row "P2" true NaN "OK" 0 (Fin 0).


(** Eleven trains with the same mileage, listed by rising branding
    priority: the first of the input has the lowest score. *)
Definition eleven : list (string * Z) :=
  [ ("E01", 1); ("E02", 2); ("E03", 3); ("E04", 4); ("E05", 5); ("E06", 6);
    ("E07", 7); ("E08", 8); ("E09", 9); ("E10", 10); ("E11", 11) ]%Z.

Definition eleven_trains : list (Roster.row date_cell) :=
  map (fun p =>
         {| Roster.train_id := fst p;
            Roster.fitness_valid_until := DText "20";
            Roster.job_card_open := false;
            Roster.branding_priority := CInt (snd p);
            Roster.mileage_last_week := CInt 400;
            Roster.needs_cleaning := false;
            Roster.bay_position := None |}) eleven.

Definition eleven_out : list Evaluated.row :=
  map (fun p =>
         evaluated_row (fst p) true (score_in (repeat 400%R 11) (snd p) 400)
           "OK" (snd p) (Fin 400)) eleven.

(** A branding priority of 311 digits: [int()] reads it, and a thousand
    times it has no float. *)
Definition T8 : Train :=
  train "T8" (Some 20%Z) (CStr (String "1" (zeros 310))) (CInt 100) false.

Definition two_slots : CleaningSlots := {| available := Some [true; true] |}.

Definition T4_out_with_slot : Evaluated.row :=
  evaluated_row "T4" true (score_in [300; 500]%R 2 500) "Needs cleaning" 2 (Fin 500).

(** [pd.to_datetime] for the runs below: a day number is a date, the
    empty text is NaT, anything else raises. *)
Definition to_day_number (s : string) : result (option Z) :=
  match s with
  | EmptyString => Ok None
  | _ => d <- int_of_text s ;; Ok (Some d)
  end.

(** Two sample trains: one drawn valid and without a card, one drawn
    expired with a card. *)
Definition draw_valid : TrainDraw :=
  {| valid_draw := true; days_draw := 3; open_draw := false;
     branding_draw := 2; mileage_draw := 700; cleaning_draw := false;
     bay_draw := 4 |}.
Definition draw_expired : TrainDraw :=
  {| valid_draw := false; days_draw := 2; open_draw := true;
     branding_draw := 0; mileage_draw := 900; cleaning_draw := true;
     bay_draw := 1 |}.

(** * Properties *)

(** ** The model at work *)

Example int_of_text_12 : int_of_text " +1_2 " = Ok 12%Z.
Proof. reflexivity. Qed.

Example int_of_text_neg : int_of_text "-7" = Ok (-7)%Z.
Proof. reflexivity. Qed.

Example int_of_text_high : int_of_text "high" = Raise ValueError.
Proof. reflexivity. Qed.

Example int_of_text_empty : int_of_text "" = Raise ValueError.
Proof. reflexivity. Qed.

Example contains_ex1 : contains "Needs" "Expired fitness; Needs cleaning" = true.
Proof. reflexivity. Qed.

Example contains_ex2 : contains "slot" "Expired fitness; Needs cleaning" = false.
Proof. reflexivity. Qed.

(** ** The loop, row by row *)

(** Line 108 raises nothing but the overflow of the conversion, and gives
    the number of the formula otherwise. *)
Lemma score_of_value mean std b m s :
  score_of mean std b m = Ok s -> s = score_value mean std b m.
Proof.
  unfold score_of, float_of_int, score_value.
  destruct (fits_float (b * 1000)); simpl; intros H; [|discriminate].
  inversion H. reflexivity.
Qed.

Lemma score_of_fits mean std b m :
  fits_float (b * 1000) = true ->
  score_of mean std b m = Ok (score_value mean std b m).
Proof.
  unfold score_of, float_of_int, score_value. intros ->. reflexivity.
Qed.

Section EvaluateFacts.

Variable float_of_text : string -> result pyfloat.

Lemma used_after_app today jc cap u l1 l2 :
  used_after today jc cap u (l1 ++ l2)
  = used_after today jc cap (used_after today jc cap u l1) l2.
Proof. unfold used_after. apply fold_left_app. Qed.

Lemma iterrows_rows today jc cap mean std :
  forall df st st',
    iterrows float_of_text today jc cap mean std st df = Ok st' ->
    List.length (rows st') = (List.length (rows st) + List.length df)%nat /\
    (forall j, (j < List.length (rows st))%nat ->
               nth_error (rows st') j = nth_error (rows st) j) /\
    (forall i r, nth_error df i = Some r ->
       exists o,
         nth_error (rows st') (List.length (rows st) + i) = Some o /\
         emitted float_of_text mean std r
           (check_row today jc cap
              (used_after today jc cap (cleaning_used st) (firstn i df)) r) o).
Proof.
  induction df as [|r rest IH]; intros st st' H; simpl in H.
  - inversion H; subst st'. repeat split.
    + simpl. lia.
    + intros i r Hi. destruct i; discriminate.
  - unfold loop_body in H.
    destruct (branding_of r) as [b|e] eqn:Hb; simpl in H; [|discriminate].
    destruct (mileage_of float_of_text r) as [m|e] eqn:Hm;
      simpl in H; [|discriminate].
    destruct (score_of mean std b m) as [s|e] eqn:Hs;
      simpl in H; [|discriminate].
    apply IH in H. simpl in H. destruct H as (Hlen & Hold & Hnew).
    rewrite length_app in Hlen, Hold, Hnew. simpl in Hlen, Hold, Hnew.
    repeat split.
    + simpl. lia.
    + intros j Hj. rewrite Hold by lia. apply nth_error_app1; assumption.
    + intros i r0 Hi. destruct i as [|i].
      * simpl in Hi. inversion Hi; subst r0. rewrite Nat.add_0_r.
        eexists. split.
        -- rewrite Hold by lia. rewrite nth_error_app2 by lia.
           rewrite Nat.sub_diag. reflexivity.
        -- simpl. unfold emitted. simpl. repeat split; assumption.
      * simpl in Hi. destruct (Hnew i r0 Hi) as (o & Ho & He).
        exists o. split.
        -- rewrite <- Ho. f_equal. lia.
        -- exact He.
Qed.

(** What a successful call has computed, row by row. *)
Lemma evaluate_rows df today jc cs out :
  evaluate float_of_text df today jc cs = Ok out ->
  exists mean std,
    series_mean (map Roster.mileage_last_week df) = Ok mean /\
    series_std (map Roster.mileage_last_week df) = Ok std /\
    List.length out = List.length df /\
    forall i r, nth_error df i = Some r ->
      exists o,
        nth_error out i = Some o /\
        emitted float_of_text mean (or_1 std) r
          (check_row today jc (cleaning_capacity_of cs)
             (used_before today jc (cleaning_capacity_of cs) df i) r) o.
Proof.
  unfold evaluate. intros H.
  destruct (series_mean (map Roster.mileage_last_week df)) as [mean|] eqn:Hmean;
    simpl in H; [|discriminate].
  destruct (series_std (map Roster.mileage_last_week df)) as [std|] eqn:Hstd;
    simpl in H; [|discriminate].
  destruct (iterrows float_of_text today jc (cleaning_capacity_of cs) mean
              (or_1 std) initial_state df) as [st|] eqn:Hloop;
    simpl in H; [|discriminate].
  inversion H; subst out.
  apply iterrows_rows in Hloop. simpl in Hloop.
  destruct Hloop as (Hlen & _ & Hnew).
  exists mean, std. repeat split; try assumption.
Qed.

End EvaluateFacts.

(** ** Substrings of a joined reason *)

Lemma prefix_append (n a b : string) :
  String.prefix n a = true -> String.prefix n (a ++ b) = true.
Proof.
  revert a. induction n as [|c n IH]; intros a H.
  - destruct (a ++ b)%string; reflexivity.
  - destruct a as [|d a]; simpl in H; [discriminate|].
    simpl. destruct (ascii_dec c d); [|discriminate]. apply IH; assumption.
Qed.

Lemma prefix_refl (n : string) : String.prefix n n = true.
Proof.
  induction n as [|c n IH]; [reflexivity|].
  simpl. destruct (ascii_dec c c); [assumption|congruence].
Qed.

Lemma contains_append_l (n a b : string) :
  contains n a = true -> contains n (a ++ b) = true.
Proof.
  induction a as [|c a IH]; intros H.
  - simpl in H. rewrite orb_false_r in H.
    destruct n; [|discriminate]. destruct b; reflexivity.
  - simpl in H. apply orb_true_iff in H. simpl. apply orb_true_iff.
    destruct H as [H|H].
    + left. apply (prefix_append n (String c a) b). assumption.
    + right. apply IH; assumption.
Qed.

Lemma contains_append_r (n a b : string) :
  contains n b = true -> contains n (a ++ b) = true.
Proof.
  intros H. induction a as [|c a IH]; [assumption|].
  simpl. rewrite IH. apply orb_true_r.
Qed.

Lemma contains_refl (n : string) : contains n n = true.
Proof.
  destruct n; [reflexivity|].
  unfold contains; fold contains. rewrite prefix_refl. reflexivity.
Qed.

Lemma contains_concat (n x : string) (l : list string) :
  In x l -> contains n x = true -> contains n (String.concat "; " l) = true.
Proof.
  intros Hin Hx. induction l as [|y l IH]; [contradiction|].
  destruct l as [|z l].
  - destruct Hin as [->|[]]. exact Hx.
  - change (String.concat "; " (y :: z :: l))
      with (y ++ "; " ++ String.concat "; " (z :: l))%string.
    destruct Hin as [->|Hin].
    + apply contains_append_l; assumption.
    + apply contains_append_r. apply (contains_append_r n "; "). apply IH; assumption.
Qed.

(** A reason appended to the list can be read in the joined string. *)
Lemma contains_join_reason (n x : string) (l : list string) :
  In x l -> contains n x = true -> contains n (join_reason l) = true.
Proof.
  intros Hin Hx. destruct l as [|y l]; [contradiction|].
  apply (contains_concat n x); assumption.
Qed.

(** ** The checks of one row *)

Lemma check_row_eligible today jc cap used r :
  c_eligible (check_row today jc cap used r)
  = negb (fitness_expired today r) && negb (has_job_card jc r)
    && (negb (Roster.needs_cleaning r) || slot_available cap used).
Proof.
  unfold check_row, fitness_expired, has_job_card, slot_available.
  destruct (Roster.fitness_valid_until r) as [d|]; [destruct (d <? today)%Z|];
    (destruct jc as [jc|]; [destruct (isin _ _)|]);
    destruct (Roster.needs_cleaning r);
    (destruct cap as [c|]; [destruct (used <? c)%nat|]); reflexivity.
Qed.

Lemma check_row_expired today jc cap used r :
  fitness_expired today r = true ->
  In "Expired fitness" (c_reason (check_row today jc cap used r)).
Proof.
  unfold check_row, fitness_expired. intros ->.
  destruct jc as [jc|]; [destruct (isin _ _)|];
    destruct (Roster.needs_cleaning r);
    (destruct cap as [c|]; [try destruct (used <? c)%nat|]);
    simpl; auto 6.
Qed.


Lemma check_row_needs_cleaning today jc cap used r :
  Roster.needs_cleaning r = true ->
  In "Needs cleaning" (c_reason (check_row today jc cap used r)).
Proof.
  unfold check_row. intros ->.
  destruct (match Roster.fitness_valid_until r with
            | Some d => (d <? today)%Z | None => true end);
    (destruct jc as [jc|]; [destruct (isin _ _)|]);
    (destruct cap as [c|]; [try destruct (used <? c)%nat|]);
    simpl; auto 6.
Qed.

(** The counter moves by one exactly when a row that needs cleaning and
    is still eligible finds the counter below a known capacity. *)
Lemma check_row_used today jc cap used r :
  c_cleaning_used (check_row today jc cap used r)
  = (used +
     match cap with
     | Some capacity =>
         if Roster.needs_cleaning r && negb (fitness_expired today r)
            && negb (has_job_card jc r) && (used <? capacity)%nat
         then 1 else 0
     | None => 0
     end)%nat.
Proof.
  unfold check_row, fitness_expired, has_job_card.
  destruct (Roster.fitness_valid_until r) as [d|]; [destruct (d <? today)%Z|];
    (destruct jc as [jc|]; [destruct (isin _ _)|]);
    destruct (Roster.needs_cleaning r);
    (destruct cap as [c|]; [destruct (used <? c)%nat|]); simpl; lia.
Qed.

(** ** When [evaluate] returns *)

Lemma numeric_values_ok (col : list cell) :
  forallb (fun c => negb (is_text c)) col = true ->
  exists vs, numeric_values col = Ok vs.
Proof.
  induction col as [|c col IH]; intros H; [eexists; reflexivity|].
  simpl in H. apply andb_true_iff in H. destruct H as [Hc Hcol].
  destruct (IH Hcol) as [vs Hvs].
  destruct c as [z|[x|]|s]; simpl; rewrite ?Hvs; simpl;
    try (eexists; reflexivity); discriminate.
Qed.

Lemma numeric_values_text (col : list cell) :
  existsb is_text col = true -> numeric_values col = Raise TypeError.
Proof.
  induction col as [|c col IH]; intros H; [discriminate|].
  simpl in H. destruct c as [z|[x|]|s]; simpl in *;
    try reflexivity; rewrite (IH H); reflexivity.
Qed.

Lemma mileage_of_fin float_of_text (r : Train) :
  is_text (Roster.mileage_last_week r) = false ->
  exists m, mileage_of float_of_text r = Ok (Fin m).
Proof.
  unfold mileage_of, py_float.
  destruct (Roster.mileage_last_week r) as [z|[x|]|s]; simpl; intros H;
    try discriminate; eexists; reflexivity.
Qed.

Lemma convertible_inv (r : Train) :
  convertible r = true ->
  exists b, branding_of r = Ok b /\ fits_float (b * 1000) = true /\
            is_text (Roster.mileage_last_week r) = false.
Proof.
  unfold convertible. rewrite !andb_true_iff. intros ((Hb & _) & Hm).
  destruct (branding_of r) as [b|e]; [|discriminate].
  exists b. repeat split; [assumption|].
  destruct (Roster.mileage_last_week r); [reflexivity|reflexivity|discriminate].
Qed.


Section Totality.

Variable float_of_text : string -> result pyfloat.

Lemma iterrows_ok today jc cap mean std :
  forall df st,
    forallb convertible df = true ->
    exists st', iterrows float_of_text today jc cap mean std st df = Ok st'.
Proof.
  induction df as [|r rest IH]; intros st H; [eexists; reflexivity|].
  simpl in H. apply andb_true_iff in H. destruct H as [Hr Hrest].
  destruct (convertible_inv r Hr) as (b & Hb & Hfit & Hm).
  simpl. unfold loop_body. rewrite Hb. simpl.
  destruct (mileage_of_fin float_of_text r Hm) as [m ->]. simpl.
  rewrite (score_of_fits _ _ _ _ Hfit). simpl. apply IH. assumption.
Qed.

(** [evaluate] returns a frame on every roster of convertible rows. *)
Lemma evaluate_ok df today jc cs :
  forallb convertible df = true ->
  exists out, evaluate float_of_text df today jc cs = Ok out.
Proof.
  intros H. unfold evaluate, series_mean, series_std.
  destruct (numeric_values_ok (map Roster.mileage_last_week df)) as [vs Hvs].
  { rewrite forallb_forall in *. intros c Hc. apply in_map_iff in Hc.
    destruct Hc as (r & <- & Hr). specialize (H r Hr).
    destruct (convertible_inv r H) as (_ & _ & _ & ->). reflexivity. }
  rewrite Hvs. simpl.
  destruct (iterrows_ok today jc (cleaning_capacity_of cs)
              (match vs with [] => NaN | _ :: _ => Fin (mean_of vs) end)
              (or_1 (if (List.length vs <=? 1)%nat then NaN
                     else Fin (sample_std vs)))
              df initial_state H) as [st Hst].
  rewrite Hst. simpl. eexists; reflexivity.
Qed.

(** A text cell in the mileage column stops the call at line 72. *)
Lemma text_mileage_raises df today jc cs :
  existsb is_text (map Roster.mileage_last_week df) = true ->
  evaluate float_of_text df today jc cs = Raise TypeError.
Proof.
  intros H. unfold evaluate, series_mean.
  rewrite (numeric_values_text _ H). reflexivity.
Qed.

End Totality.

Lemma isin_In (x : string) (l : list string) : isin x l = true <-> In x l.
Proof.
  unfold isin. rewrite existsb_exists. split.
  - intros (y & Hy & He). apply String.eqb_eq in He. subst. assumption.
  - intros H. exists x. split; [assumption|apply String.eqb_refl].
Qed.

(** ** Eligibility *)

(** What [evaluate] reports of a row, read off the checks of the row. *)
Lemma evaluate_checked float_of_text df today jc cs out i r o :
  evaluate float_of_text df today jc cs = Ok out ->
  nth_error df i = Some r ->
  nth_error out i = Some o ->
  let c := check_row today jc (cleaning_capacity_of cs)
             (used_before today jc (cleaning_capacity_of cs) df i) r in
  Evaluated.eligible o = c_eligible c /\
  Evaluated.reason o = join_reason (c_reason c).
Proof.
  intros Hev Hr Ho.
  destruct (evaluate_rows _ _ _ _ _ _ Hev) as (mean & std & _ & _ & _ & Hrows).
  destruct (Hrows i r Hr) as (o' & Ho' & He).
  rewrite Ho in Ho'. inversion Ho'; subst o'.
  destruct He as (_ & Hel & Hre & _). split; assumption.
Qed.

(** Line 80-82 seen from the output. *)
Lemma evaluate_expired float_of_text df today jc cs out i r o :
  evaluate float_of_text df today jc cs = Ok out ->
  nth_error df i = Some r ->
  nth_error out i = Some o ->
  fitness_expired today r = true ->
  Evaluated.eligible o = false /\
  contains "Expired fitness" (Evaluated.reason o) = true.
Proof.
  intros Hev Hr Ho Hx.
  destruct (evaluate_checked _ _ _ _ _ _ _ _ _ Hev Hr Ho) as (Hel & Hre).
  rewrite Hel, Hre, check_row_eligible, Hx. split; [reflexivity|].
  apply (contains_join_reason _ "Expired fitness");
    [apply check_row_expired; assumption|reflexivity].
Qed.

(** ** Cleaning capacity *)

Lemma iterrows_eligibility float_of_text today jc cap mean std :
  forall df st st',
    iterrows float_of_text today jc cap mean std st df = Ok st' ->
    map Evaluated.eligible (rows st')
    = map Evaluated.eligible (rows st) ++ eligibility today jc cap (cleaning_used st) df.
Proof.
  induction df as [|r rest IH]; intros st st' H; simpl in H.
  - inversion H. simpl. rewrite app_nil_r. reflexivity.
  - unfold loop_body in H.
    destruct (branding_of r) as [b|e]; simpl in H; [|discriminate].
    destruct (mileage_of float_of_text r) as [m|e]; simpl in H; [|discriminate].
    destruct (score_of mean std b m) as [s|e]; simpl in H; [|discriminate].
    apply IH in H. simpl in H. rewrite H, map_app, <- app_assoc. reflexivity.
Qed.



Lemma evaluate_eligibility float_of_text df today jc cs out :
  evaluate float_of_text df today jc cs = Ok out ->
  map Evaluated.eligible out
  = eligibility today jc (cleaning_capacity_of cs) 0 df.
Proof.
  unfold evaluate. intros H.
  destruct (series_mean _) as [mean|]; simpl in H; [|discriminate].
  destruct (series_std _) as [std|]; simpl in H; [|discriminate].
  destruct (iterrows _ _ _ _ _ _ _ _) as [st|] eqn:Hloop; simpl in H; [|discriminate].
  inversion H; subst out. apply iterrows_eligibility in Hloop. exact Hloop.
Qed.

Lemma used_after_cons today jc cap used r rest :
  used_after today jc cap used (r :: rest)
  = used_after today jc cap (c_cleaning_used (check_row today jc cap used r)) rest.
Proof. reflexivity. Qed.

(** Every eligible train that needs cleaning has moved the counter. *)
Lemma count_needing_used today jc capacity :
  forall df used,
    (count_needing df (eligibility today jc (Some capacity) used df) + used)%nat
    = used_after today jc (Some capacity) used df.
Proof.
  induction df as [|r rest IH]; intros used; [reflexivity|].
  rewrite used_after_cons, <- IH.
  unfold count_needing, eligibility. simpl.
  set (c := check_row today jc (Some capacity) used r).
  assert (Hc : c_cleaning_used c
               = (used + if Roster.needs_cleaning r && c_eligible c then 1 else 0)%nat).
  { unfold c. rewrite check_row_used, check_row_eligible. unfold slot_available.
    destruct (Roster.needs_cleaning r), (fitness_expired today r),
      (has_job_card jc r), (used <? capacity)%nat; reflexivity. }
  clearbody c.
  destruct (Roster.needs_cleaning r && c_eligible c); simpl; lia.
Qed.

(** The counter never passes the capacity. *)
Lemma used_after_le today jc capacity :
  forall df used,
    (used <= capacity)%nat ->
    (used_after today jc (Some capacity) used df <= capacity)%nat.
Proof.
  induction df as [|r rest IH]; intros used H; [assumption|].
  rewrite used_after_cons. apply IH. rewrite check_row_used.
  destruct (used <? capacity)%nat eqn:E.
  - apply Nat.ltb_lt in E.
    destruct (_ && _ && _ && true); lia.
  - rewrite andb_false_r. lia.
Qed.

Lemma check_row_no_slot today jc capacity used r :
  Roster.needs_cleaning r = true ->
  fitness_expired today r = false ->
  has_job_card jc r = false ->
  (capacity <= used)%nat ->
  In "No cleaning slot available"
     (c_reason (check_row today jc (Some capacity) used r)).
Proof.
  unfold check_row, fitness_expired, has_job_card. intros -> -> Hj Hle.
  apply Nat.ltb_ge in Hle. rewrite Hle.
  destruct jc as [jc|]; [rewrite Hj|]; simpl; auto.
Qed.

Lemma used_before_S today jc cap df i r :
  nth_error df i = Some r ->
  used_before today jc cap df (S i)
  = c_cleaning_used (check_row today jc cap (used_before today jc cap df i) r).
Proof.
  intros H. unfold used_before.
  assert (E : firstn (S i) df = firstn i df ++ [r]).
  { revert i H. induction df as [|x df IH]; intros [|i] H; try discriminate.
    - inversion H. reflexivity.
    - simpl in H. simpl. f_equal. apply (IH i H). }
  rewrite E, used_after_app. reflexivity.
Qed.

Lemma checks_firstn today jc cap :
  forall df used i,
    firstn i (checks today jc cap used df)
    = checks today jc cap used (firstn i df).
Proof.
  induction df as [|r rest IH]; intros used [|i]; try reflexivity.
  simpl. f_equal. apply IH.
Qed.

(** The counter the loop holds at row [i] is the number of trains before
    it that need cleaning and are eligible in the output. *)
Lemma slots_taken_used float_of_text df today jc cs out capacity i :
  evaluate float_of_text df today jc cs = Ok out ->
  cleaning_capacity_of cs = Some capacity ->
  slots_taken_before df out i = used_before today jc (Some capacity) df i.
Proof.
  intros Hev Hcap.
  unfold slots_taken_before, eligible_needing_cleaning, used_before.
  rewrite <- firstn_map, (evaluate_eligibility _ _ _ _ _ _ Hev), Hcap.
  unfold eligibility. rewrite firstn_map, checks_firstn.
  rewrite <- count_needing_used. unfold eligibility. lia.
Qed.



(** A row that comes to the cleaning check already ineligible gets the
    reasons of the two checks before it, then "Needs cleaning", and
    nothing more. *)
Lemma check_row_blocked today jc cap used r :
  Roster.needs_cleaning r = true ->
  fitness_expired today r = true \/ has_job_card jc r = true ->
  c_eligible (check_row today jc cap used r) = false /\
  c_reason (check_row today jc cap used r)
  = blocking_reasons today jc r ++ ["Needs cleaning"].
Proof.
  unfold check_row, blocking_reasons, fitness_expired, has_job_card.
  intros -> H.
  destruct (match Roster.fitness_valid_until r with
            | Some d => (d <? today)%Z | None => true end);
    (destruct jc as [jc|]; [destruct (isin _ _)|]);
    (destruct cap as [c|]; [try destruct (used <? c)%nat|]);
    simpl; try (split; reflexivity);
    destruct H as [H|H]; discriminate.
Qed.

(** C3, amended.  With a known cleaning capacity, the eligible trains of
    the output that need cleaning are as many as the slots consumed, hence
    at most the capacity.  The counter the loop holds at a row is the
    number of trains before it in the input that need cleaning and are
    eligible in the output; it moves by one for each train that needs
    cleaning, is still eligible at the cleaning check and finds the
    counter below the capacity.  A train that needs cleaning, is still
    eligible at the cleaning check and is met once the capacity is used
    up is ineligible, with a reason containing both "Needs cleaning" and
    "No cleaning slot available".  A train that needs cleaning and is
    already ineligible at the cleaning check takes no slot and is not held
    against the capacity: its reason is made of the reasons of the fitness
    and job-card checks, then "Needs cleaning", and nothing after it. *)
Theorem cleaning_capacity_respected
    (float_of_text : string -> result pyfloat)
    (df : list Train) (today : Z) (job_cards : option JobCards)
    (cleaning_slots : option CleaningSlots) (out : list Evaluated.row)
    (capacity : nat) :
  evaluate float_of_text df today job_cards cleaning_slots = Ok out ->
  cleaning_capacity_of cleaning_slots = Some capacity ->
  eligible_needing_cleaning df out
  = used_after today job_cards (Some capacity) 0 df /\
  (eligible_needing_cleaning df out <= capacity)%nat /\
  forall i r o,
    nth_error df i = Some r ->
    nth_error out i = Some o ->
    let used := used_before today job_cards (Some capacity) df i in
    used = slots_taken_before df out i /\
    used_before today job_cards (Some capacity) df (S i)
    = (used +
       if Roster.needs_cleaning r && negb (fitness_expired today r)
          && negb (has_job_card job_cards r) && (used <? capacity)%nat
       then 1 else 0)%nat /\
    (Roster.needs_cleaning r = true ->
     fitness_expired today r = false ->
     has_job_card job_cards r = false ->
     (capacity <= used)%nat ->
     Evaluated.eligible o = false /\
     contains "Needs cleaning" (Evaluated.reason o) = true /\
     contains "No cleaning slot available" (Evaluated.reason o) = true) /\
    (Roster.needs_cleaning r = true ->
     fitness_expired today r = true \/ has_job_card job_cards r = true ->
     Evaluated.eligible o = false /\
     Evaluated.reason o
     = join_reason (blocking_reasons today job_cards r ++ ["Needs cleaning"]) /\
     used_before today job_cards (Some capacity) df (S i) = used).
Proof.
  intros Hev Hcap.
  assert (Hcount : eligible_needing_cleaning df out
                   = used_after today job_cards (Some capacity) 0 df).
  { unfold eligible_needing_cleaning.
    rewrite (evaluate_eligibility _ _ _ _ _ _ Hev), Hcap.
    rewrite <- count_needing_used. lia. }
  split; [exact Hcount|]. split.
  { rewrite Hcount. apply used_after_le. lia. }
  intros i r o Hr Ho used.
  destruct (evaluate_rows _ _ _ _ _ _ Hev) as (mean & std & _ & _ & _ & Hrows).
  destruct (Hrows i r Hr) as (o' & Ho' & He).
  rewrite Ho in Ho'. inversion Ho'; subst o'. clear Ho'.
  destruct He as (_ & Hel & Hre & _). rewrite Hcap in Hel, Hre.
  fold used in Hel, Hre.
  assert (Hstep : used_before today job_cards (Some capacity) df (S i)
                  = (used +
                     if Roster.needs_cleaning r && negb (fitness_expired today r)
                        && negb (has_job_card job_cards r)
                        && (used <? capacity)%nat
                     then 1 else 0)%nat).
  { rewrite (used_before_S _ _ _ _ _ _ Hr). fold used. apply check_row_used. }
  split; [|split; [|split]].
  - unfold used. symmetry.
    apply (slots_taken_used _ _ _ _ _ _ _ i Hev Hcap).
  - exact Hstep.
  - intros Hn Hf Hj Hle. rewrite Hel, Hre, check_row_eligible, Hn.
    unfold slot_available. apply Nat.ltb_ge in Hle. rewrite Hle.
    rewrite andb_false_r. split; [reflexivity|]. split.
    + apply (contains_join_reason _ "Needs cleaning");
        [apply check_row_needs_cleaning; assumption|reflexivity].
    + apply (contains_join_reason _ "No cleaning slot available");
        [|reflexivity].
      apply check_row_no_slot; try assumption. apply Nat.ltb_ge. assumption.
  - intros Hn Hblocked.
    destruct (check_row_blocked today job_cards (Some capacity) used r Hn Hblocked)
      as (Hce & Hcr).
    rewrite Hel, Hre, Hce, Hcr. split; [reflexivity|]. split; [reflexivity|].
    rewrite Hstep.
    destruct Hblocked as [Hx|Hx]; rewrite Hx, ?andb_false_r; simpl; lia.
Qed.

(** ** Scores *)

Lemma or_1_fin (x : R) :
  exists y, or_1 (Fin x) = Fin y /\
            (x = 0%R -> y = 1%R) /\ (x <> 0%R -> y = x).
Proof.
  unfold or_1. destruct (Req_dec_T x 0) as [E|E].
  - exists 1%R. repeat split; intros; congruence.
  - exists x. repeat split; intros; congruence.
Qed.

(** After [or 1] the deviation is NaN or positive. *)
Lemma or_1_series_std (col : list cell) (std : pyfloat) :
  series_std col = Ok std ->
  or_1 std = NaN \/ exists y, or_1 std = Fin y /\ (0 < y)%R.
Proof.
  unfold series_std. destruct (numeric_values col) as [vs|]; simpl; [|discriminate].
  intros H. inversion H; subst std.
  destruct (List.length vs <=? 1)%nat; [left; reflexivity|right].
  destruct (or_1_fin (sample_std vs)) as (y & Hy & H0 & H1).
  exists y. split; [assumption|].
  destruct (Req_dec_T (sample_std vs) 0) as [E|E].
  - rewrite (H0 E). lra.
  - rewrite (H1 E). pose proof (sqrt_pos (sum_sq_dev vs / (INR (List.length vs) - 1))).
    unfold sample_std in *. lra.
Qed.










Lemma score_value_branding (mean std m : pyfloat) (b1 b2 : Z) :
  (b2 <= b1)%Z -> ~ flt (score_value mean std b1 m) (score_value mean std b2 m).
Proof.
  intros Hb. unfold score_value.
  destruct (fmul (fdiv (fsub m mean) std) (Fin 100)) as [x|]; simpl; [|tauto].
  apply (Z.mul_le_mono_nonneg_r _ _ 1000) in Hb; [|lia].
  apply IZR_le in Hb. lra.
Qed.

Lemma score_value_mileage (mean std m1 m2 : pyfloat) (b : Z) :
  (or_1 std = NaN \/ exists y, or_1 std = Fin y /\ (0 < y)%R) ->
  flt m2 m1 ->
  ~ flt (score_value mean (or_1 std) b m2) (score_value mean (or_1 std) b m1).
Proof.
  intros Hstd Hm. unfold score_value.
  destruct m1 as [x1|], m2 as [x2|]; simpl in Hm; try contradiction.
  destruct mean as [mu|]; simpl; [|tauto].
  destruct Hstd as [->|(y & -> & Hy)]; simpl; [tauto|].
  assert (H : ((x2 - mu) / y <= (x1 - mu) / y)%R).
  { unfold Rdiv. apply Rmult_le_compat_r; [|lra].
    left. apply Rinv_0_lt_compat. assumption. }
  lra.
Qed.

(** C6.  Within one call of [evaluate], of two output rows with equal
    mileage the one with the higher branding priority does not have the
    lower score, and of two output rows with equal branding priority the
    one with the higher mileage does not have the higher score. *)
Theorem score_monotone
    (float_of_text : string -> result pyfloat)
    (df : list Train) (today : Z) (job_cards : option JobCards)
    (cleaning_slots : option CleaningSlots) (out : list Evaluated.row)
    (i j : nat) (oi oj : Evaluated.row) :
  evaluate float_of_text df today job_cards cleaning_slots = Ok out ->
  nth_error out i = Some oi ->
  nth_error out j = Some oj ->
  (Evaluated.mileage_last_week oi = Evaluated.mileage_last_week oj ->
   (Evaluated.branding_priority oj <= Evaluated.branding_priority oi)%Z ->
   ~ flt (Evaluated.score oi) (Evaluated.score oj)) /\
  (Evaluated.branding_priority oi = Evaluated.branding_priority oj ->
   flt (Evaluated.mileage_last_week oj) (Evaluated.mileage_last_week oi) ->
   ~ flt (Evaluated.score oj) (Evaluated.score oi)).
Proof.
  intros Hev Hi Hj.
  destruct (evaluate_rows _ _ _ _ _ _ Hev) as (mean & sd & _ & Hsd & Hlen & Hrows).
  assert (Hscore : forall k o, nth_error out k = Some o ->
            Evaluated.score o =
              score_value mean (or_1 sd) (Evaluated.branding_priority o)
                (Evaluated.mileage_last_week o)).
  { intros k o Hk.
    destruct (nth_error df k) as [r|] eqn:Hr.
    - destruct (Hrows k r Hr) as (o' & Ho' & He).
      rewrite Hk in Ho'. inversion Ho'; subst o'.
      apply score_of_value. apply He.
    - apply nth_error_None in Hr.
      assert (k < List.length out)%nat by (apply nth_error_Some; congruence). lia. }
  rewrite (Hscore i oi Hi), (Hscore j oj Hj). split.
  - intros Hm Hb. rewrite Hm. apply score_value_branding. assumption.
  - intros Hb Hm. rewrite Hb. apply score_value_mileage; [|assumption].
    apply (or_1_series_std _ _ Hsd).
Qed.

(** ** Missing and non-numeric values *)





Lemma has_column_added col name cells df :
  has_column col
    {| index_len := index_len df; columns := columns df ++ [(name, cells)] |}
  = has_column col df || String.eqb col name.
Proof.
  unfold has_column. simpl. rewrite map_app, existsb_app. simpl.
  rewrite orb_false_r. reflexivity.
Qed.

Lemma fill_schema (schema : list (string * pyval)) :
  NoDup (map fst schema) ->
  forall df warnings,
    fold_left fill_column schema (df, warnings)
    = ({| index_len := index_len df;
          columns := columns df
                     ++ default_columns (index_len df) (missing_columns schema df) |},
       warnings ++ missing_columns schema df).
Proof.
  induction schema as [|[col default] schema IH]; intros Hnd df warnings.
  - simpl. rewrite !app_nil_r. destruct df; reflexivity.
  - inversion Hnd as [|x l Hnotin Hnd']; subst.
    change (fold_left fill_column ((col, default) :: schema) (df, warnings))
      with (fold_left fill_column schema
              (fill_column (df, warnings) (col, default))).
    assert (Hstep : fill_column (df, warnings) (col, default)
                    = if has_column col df then (df, warnings)
                      else ({| index_len := index_len df;
                               columns := columns df
                                 ++ [(col, repeat default (index_len df))] |},
                            warnings ++ [(col, default)])).
    { unfold fill_column. destruct (has_column col df); reflexivity. }
    rewrite Hstep. clear Hstep.
    unfold missing_columns. simpl filter.
    destruct (has_column col df) eqn:Hc; simpl negb; cbv iota.
    + apply IH. assumption.
    + rewrite IH by assumption. simpl index_len. simpl columns.
      assert (Hsame : missing_columns schema
                        {| index_len := index_len df;
                           columns := columns df
                                      ++ [(col, repeat default (index_len df))] |}
                      = missing_columns schema df).
      { unfold missing_columns. apply filter_ext_in.
        intros [c d] Hin. simpl. rewrite has_column_added.
        destruct (String.eqb c col) eqn:E; [|rewrite orb_false_r; reflexivity].
        apply String.eqb_eq in E. subst c. exfalso. apply Hnotin.
        apply (in_map fst) in Hin. exact Hin. }
      rewrite Hsame. unfold missing_columns, default_columns. simpl.
      rewrite <- !app_assoc. reflexivity.
Qed.

Lemma filter_none {A : Type} (f : A -> bool) (l : list A) :
  (forall x, In x l -> f x = false) -> filter f l = [].
Proof.
  induction l as [|x l IH]; intros H; [reflexivity|].
  simpl. rewrite (H x (or_introl eq_refl)). apply IH.
  intros y Hy. apply H. right. assumption.
Qed.

Lemma expected_cols_NoDup today : NoDup (map fst (expected_cols today)).
Proof.
  simpl. repeat constructor; simpl; intros H;
    repeat (destruct H as [H|H]; [discriminate H|]); exact H.
Qed.

Lemma fill_defaults_eq (today : option Z) (df : Frame) :
  fill_defaults today df
  = ({| index_len := index_len df;
        columns := columns df
                   ++ default_columns (index_len df)
                        (missing_columns (expected_cols today) df) |},
     missing_columns (expected_cols today) df).
Proof.
  unfold fill_defaults.
  rewrite (fill_schema _ (expected_cols_NoDup today)). reflexivity.
Qed.

Lemma fill_defaults_has_column (today : option Z) (df : Frame) (col : string) :
  In col (map fst (expected_cols today)) ->
  has_column col (fst (fill_defaults today df)) = true.
Proof.
  intros Hin. rewrite fill_defaults_eq. unfold has_column. simpl fst.
  simpl columns. rewrite map_app, existsb_app.
  destruct (existsb (String.eqb col) (map fst (columns df))) eqn:Hc;
    [reflexivity|].
  simpl. apply existsb_exists. exists col. split; [|apply String.eqb_refl].
  unfold default_columns. rewrite map_map. simpl.
  apply in_map_iff in Hin. destruct Hin as ([c d] & Hcd & Hin).
  simpl in Hcd. subst c.
  apply (in_map fst (missing_columns (expected_cols today) df) (col, d)).
  apply filter_In. split; [assumption|].
  unfold has_column. simpl. rewrite Hc. reflexivity.
Qed.


(** ** The [job_card_open] column *)

Lemma iterrows_job_card_open float_of_text today jc cap mean std b :
  forall df st,
    iterrows float_of_text today jc cap mean std st (map (with_job_card_open b) df)
    = iterrows float_of_text today jc cap mean std st df.
Proof.
  induction df as [|r rest IH]; intros st; [reflexivity|].
  simpl. change (loop_body float_of_text today jc cap mean std st (with_job_card_open b r))
    with (loop_body float_of_text today jc cap mean std st r).
  destruct (loop_body float_of_text today jc cap mean std st r) as [st'|e];
    simpl; [apply IH|reflexivity].
Qed.

Lemma evaluate_job_card_open float_of_text b df today jc cs :
  evaluate float_of_text (map (with_job_card_open b) df) today jc cs
  = evaluate float_of_text df today jc cs.
Proof.
  unfold evaluate.
  replace (map Roster.mileage_last_week (map (with_job_card_open b) df))
    with (map Roster.mileage_last_week df)
    by (rewrite map_map; reflexivity).
  destruct (series_mean _) as [mean|]; [simpl|reflexivity].
  destruct (series_std _) as [std|]; [simpl|reflexivity].
  rewrite iterrows_job_card_open. reflexivity.
Qed.

(** C8.  Two rosters that are identical once their [job_card_open] columns
    are overwritten with the same value get identical results from
    [evaluate], be it a frame or an exception, for the same reference date,
    job-card frame and cleaning-slot frame. *)
Theorem job_card_open_noninterference
    (float_of_text : string -> result pyfloat)
    (df1 df2 : list Train) (today : Z) (job_cards : option JobCards)
    (cleaning_slots : option CleaningSlots) :
  map (with_job_card_open false) df1 = map (with_job_card_open false) df2 ->
  evaluate float_of_text df1 today job_cards cleaning_slots
  = evaluate float_of_text df2 today job_cards cleaning_slots.
Proof.
  intros H.
  rewrite <- (evaluate_job_card_open float_of_text false df1).
  rewrite <- (evaluate_job_card_open float_of_text false df2).
  rewrite H. reflexivity.
Qed.

(** ** Unparsable dates *)

Lemma parse_fitness_nth parse_datetime (raw : list (Roster.row date_cell)) i r :
  nth_error raw i = Some r ->
  exists r',
    nth_error (parse_fitness parse_datetime raw) i = Some r' /\
    Roster.fitness_valid_until r'
    = to_datetime_coerce parse_datetime (Roster.fitness_valid_until r).
Proof.
  intros H. unfold parse_fitness. eexists. split.
  - rewrite nth_error_map, H. reflexivity.
  - reflexivity.
Qed.

(** C7.  A [fitness_valid_until] cell whose text the date parser refuses
    is no error: line 61 turns it into NaT, and on a roster whose rows are
    otherwise convertible [evaluate] returns a frame in which that train is
    ineligible with a reason containing "Expired fitness". *)
Theorem unparsable_date_is_expired
    (parse_datetime : string -> option Z)
    (float_of_text : string -> result pyfloat)
    (raw : list (Roster.row date_cell)) (today : Z)
    (job_cards : option JobCards) (cleaning_slots : option CleaningSlots)
    (i : nat) (r : Roster.row date_cell) (s : string) :
  forallb convertible (parse_fitness parse_datetime raw) = true ->
  nth_error raw i = Some r ->
  Roster.fitness_valid_until r = DText s ->
  parse_datetime s = None ->
  to_datetime_coerce parse_datetime (Roster.fitness_valid_until r) = None /\
  exists out o,
    evaluate float_of_text (parse_fitness parse_datetime raw) today
      job_cards cleaning_slots = Ok out /\
    nth_error out i = Some o /\
    Evaluated.eligible o = false /\
    contains "Expired fitness" (Evaluated.reason o) = true.
Proof.
  intros Hconv Hr Hs Hparse.
  assert (Hnat : to_datetime_coerce parse_datetime (Roster.fitness_valid_until r)
                 = None).
  { rewrite Hs. simpl. assumption. }
  split; [assumption|].
  destruct (evaluate_ok float_of_text _ today job_cards cleaning_slots Hconv)
    as [out Hev].
  destruct (parse_fitness_nth parse_datetime raw i r Hr) as (r' & Hr' & Hfit).
  destruct (evaluate_rows _ _ _ _ _ _ Hev) as (mean & std & _ & _ & _ & Hrows).
  destruct (Hrows i r' Hr') as (o & Ho & He).
  exists out, o. split; [assumption|]. split; [assumption|].
  apply (evaluate_expired _ _ _ _ _ _ _ _ _ Hev Hr' Ho).
  unfold fitness_expired. rewrite Hfit, Hnat. reflexivity.
Qed.

(** ** A cleaning-slot frame without an [available] column *)

Lemma check_row_unlimited today jc used r :
  let c := check_row today jc None used r in
  ~ In "No cleaning slot available" (c_reason c) /\
  c_cleaning_used c = used /\
  c_eligible c = negb (fitness_expired today r) && negb (has_job_card jc r) /\
  (Roster.needs_cleaning r = true ->
   fitness_expired today r = false ->
   has_job_card jc r = false ->
   c_reason c = ["Needs cleaning"]).
Proof.
  unfold check_row, fitness_expired, has_job_card.
  destruct (match Roster.fitness_valid_until r with
            | Some d => (d <? today)%Z | None => true end);
    (destruct jc as [jc|]; [destruct (isin _ _)|]);
    destruct (Roster.needs_cleaning r); simpl;
    repeat split; try reflexivity; try discriminate;
    intros H; repeat (destruct H as [H|H]; try discriminate); exact H.
Qed.

(** C10.  When the cleaning-slot frame has no [available] column the
    capacity is unknown, not zero: the loop never appends the reason
    "No cleaning slot available", eligibility is decided by the fitness and
    job-card checks alone, and a train that needs cleaning and passes both
    is eligible with the single reason "Needs cleaning". *)
Theorem no_available_column
    (float_of_text : string -> result pyfloat)
    (df : list Train) (today : Z) (job_cards : option JobCards)
    (out : list Evaluated.row) (i : nat) (r : Train) (o : Evaluated.row) :
  evaluate float_of_text df today job_cards (Some {| available := None |}) = Ok out ->
  nth_error df i = Some r ->
  nth_error out i = Some o ->
  let c := check_row today job_cards None (used_before today job_cards None df i) r in
  cleaning_capacity_of (Some {| available := None |}) = None /\
  Evaluated.reason o = join_reason (c_reason c) /\
  ~ In "No cleaning slot available" (c_reason c) /\
  Evaluated.eligible o
  = negb (fitness_expired today r) && negb (has_job_card job_cards r) /\
  (Roster.needs_cleaning r = true ->
   fitness_expired today r = false ->
   has_job_card job_cards r = false ->
   Evaluated.eligible o = true /\ Evaluated.reason o = "Needs cleaning").
Proof.
  intros Hev Hr Ho c.
  destruct (evaluate_checked _ _ _ _ _ _ _ _ _ Hev Hr Ho) as (Hel & Hre).
  simpl in Hel, Hre. fold c in Hel, Hre.
  destruct (check_row_unlimited today job_cards
              (used_before today job_cards None df i) r)
    as (Hno & _ & Hc & Hneeds).
  fold c in Hno, Hc, Hneeds.
  split; [reflexivity|]. split; [assumption|]. split; [assumption|].
  split; [congruence|].
  intros Hn Hf Hj. split.
  - rewrite Hel, Hc, Hf, Hj. reflexivity.
  - rewrite Hre, (Hneeds Hn Hf Hj). reflexivity.
Qed.

(** ** The allocation *)

Lemma select_filter {A : Type} (f : A -> bool) (l : list A) :
  select l (map f l) = filter f l.
Proof.
  induction l as [|x l IH]; [reflexivity|].
  simpl. destruct (f x); rewrite IH; reflexivity.
Qed.

Lemma select_filter_negb {A : Type} (f : A -> bool) (l : list A) :
  select l (map negb (map f l)) = filter (fun x => negb (f x)) l.
Proof.
  induction l as [|x l IH]; [reflexivity|].
  simpl. destruct (f x); rewrite IH; reflexivity.
Qed.

Lemma filter_split_perm {A : Type} (f : A -> bool) (l : list A) :
  Permutation (filter f l ++ filter (fun x => negb (f x)) l) l.
Proof.
  induction l as [|x l IH]; [constructor|].
  simpl. destruct (f x); simpl.
  - constructor. assumption.
  - apply Permutation_sym, Permutation_cons_app, Permutation_sym. assumption.
Qed.

Lemma clip_nonneg (len : nat) (i : Z) :
  (0 <= i)%Z -> clip len i = Nat.min (Z.to_nat i) len.
Proof.
  intros H. unfold clip. destruct (i <? 0)%Z eqn:E; [|reflexivity].
  apply Z.ltb_lt in E. lia.
Qed.

(** Three consecutive slices make up the frame again. *)
Lemma slices_cover {A : Type} (l : list A) (a b : nat) :
  (a <= b)%nat ->
  firstn a l ++ firstn (b - a) (skipn a l) ++ skipn b l = l.
Proof.
  intros H.
  replace (skipn b l) with (skipn (b - a) (skipn a l)).
  - rewrite firstn_skipn. apply firstn_skipn.
  - rewrite skipn_skipn. f_equal. lia.
Qed.

Lemma Forall_slice {A : Type} (P : A -> Prop) (l : list A) (a n : nat) :
  Forall P l -> Forall P (firstn n (skipn a l)).
Proof.
  intros H. rewrite <- (firstn_skipn a l) in H.
  apply Forall_app in H. destruct H as [_ H].
  rewrite <- (firstn_skipn n (skipn a l)) in H.
  apply Forall_app in H. apply H.
Qed.

Lemma assign_evaluated (a : assignment) (l : list Evaluated.row) :
  map Plan.evaluated (assign a l) = l.
Proof.
  unfold assign. rewrite map_map. simpl. apply map_id.
Qed.

Lemma assign_Forall (a : assignment) (P : Evaluated.row -> Prop)
    (l : list Evaluated.row) :
  Forall P l ->
  Forall (fun p => Plan.assignment p = a /\ P (Plan.evaluated p)) (assign a l).
Proof.
  intros H. unfold assign. apply Forall_map.
  apply (Forall_impl _ (P := P)); [|assumption].
  intros r Hr. simpl. split; [reflexivity|assumption].
Qed.

Section AllocateFacts.

Variable sort_values : list Evaluated.row -> list Evaluated.row.
Hypothesis sort_values_perm : forall l, Permutation (sort_values l) l.

(** X1.  On a frame with at least one row, the allocation splits the fleet:
    the three buckets hold every input row exactly once; Service takes
    min(serviceQuota, |eligible|) eligible rows, Standby
    min(standbyQuota, |eligible| - |Service|) eligible rows, and all the
    other rows, the ineligible ones among them, go to Maintenance/Blocked.
    No quota raises an error. *)
Theorem rank_and_assign_partition
    (evaluated : list Evaluated.row) (required_service_count standby_count : Z) :
  evaluated <> [] ->
  (1 <= required_service_count)%Z ->
  (0 <= standby_count)%Z ->
  exists a,
    rank_and_assign sort_values evaluated required_service_count standby_count
    = Ok a /\
    Permutation (map Plan.evaluated (plan a)) evaluated /\
    let n := List.length (filter Evaluated.eligible evaluated) in
    List.length (service a) = Nat.min (Z.to_nat required_service_count) n /\
    List.length (standby a)
    = Nat.min (Z.to_nat standby_count) (n - List.length (service a)) /\
    Forall (fun p => Plan.assignment p = Service /\
                     Evaluated.eligible (Plan.evaluated p) = true) (service a) /\
    Forall (fun p => Plan.assignment p = Standby /\
                     Evaluated.eligible (Plan.evaluated p) = true) (standby a) /\
    Forall (fun p => Plan.assignment p = Maintenance_Blocked) (remaining a) /\
    forall r, In r evaluated -> Evaluated.eligible r = false ->
              In {| Plan.evaluated := r; Plan.assignment := Maintenance_Blocked |}
                 (remaining a).
Proof.
  intros Hne Hs Hb.
  unfold rank_and_assign, eligible_column.
  destruct evaluated as [|r0 rest] eqn:Hev; [congruence|].
  rewrite <- Hev in *. clear Hne. simpl bind.
  rewrite select_filter, select_filter_negb.
  set (E := sort_values (filter Evaluated.eligible evaluated)).
  set (I := filter (fun x => negb (Evaluated.eligible x)) evaluated).
  assert (HE : Permutation E (filter Evaluated.eligible evaluated))
    by apply sort_values_perm.
  assert (Hlen : List.length E
                 = List.length (filter Evaluated.eligible evaluated))
    by (apply Permutation_length; assumption).
  assert (Helig : Forall (fun r => Evaluated.eligible r = true) E).
  { apply Forall_forall. intros r Hr.
    apply (Permutation_in _ HE) in Hr. apply filter_In in Hr. apply Hr. }
  unfold head, iloc, iloc_from.
  rewrite !clip_nonneg by lia. simpl skipn. rewrite Nat.sub_0_r.
  set (a := Nat.min (Z.to_nat required_service_count) (List.length E)).
  set (b := Nat.min (Z.to_nat (required_service_count + standby_count))
              (List.length E)).
  assert (Hab : (a <= b)%nat) by (unfold a, b; lia).
  eexists. split; [reflexivity|]. unfold plan. simpl.
  split; [|split; [|split; [|split; [|split; [|split]]]]].
  - rewrite !map_app, !assign_evaluated, !app_assoc.
    rewrite <- (app_assoc (firstn a E)), (slices_cover E a b Hab).
    apply (Permutation_trans (l' := filter Evaluated.eligible evaluated ++ I)).
    + apply Permutation_app_tail. assumption.
    + apply filter_split_perm.
  - unfold assign. rewrite length_map, length_firstn. unfold a. lia.
  - unfold assign. rewrite !length_map, !length_firstn, length_skipn.
    unfold a, b. lia.
  - apply (assign_Forall Service (fun r => Evaluated.eligible r = true)).
    apply (Forall_slice _ E 0). assumption.
  - apply (assign_Forall Standby (fun r => Evaluated.eligible r = true)).
    apply Forall_slice. assumption.
  - unfold assign. apply Forall_map, Forall_forall. reflexivity.
  - intros r Hr Hel. unfold assign.
    apply (in_map (fun r => {| Plan.evaluated := r;
                               Plan.assignment := Maintenance_Blocked |})).
    apply in_or_app. right. apply filter_In. split; [assumption|].
    rewrite Hel. reflexivity.
Qed.

End AllocateFacts.

(** C1.  On a roster without rows [evaluate] returns the frame built from
    an empty list of dicts, which has no [eligible] column, and the
    rank-and-assign code raises KeyError instead of returning three empty
    buckets, whatever the quotas. *)
Theorem empty_roster_raises
    (float_of_text : string -> result pyfloat)
    (sort_values : list Evaluated.row -> list Evaluated.row)
    (today : Z) (job_cards : option JobCards)
    (cleaning_slots : option CleaningSlots)
    (required_service_count standby_count : Z) :
  (evaluated <- evaluate float_of_text [] today job_cards cleaning_slots ;;
   rank_and_assign sort_values evaluated required_service_count standby_count)
  = Raise KeyError.
Proof. reflexivity. Qed.

(** ** Worked runs *)

(** The scenario of the specification. *)
Example evaluate_T1_T2 :
  evaluate no_float_of_text [T1; T2] 10 None None = Ok [T1_out; T2_out].
Proof. reflexivity. Qed.

(** One slot for two trains that need cleaning: the first in the input
    takes it. *)
Example evaluate_T3_T4 :
  evaluate no_float_of_text [T3; T4] 10 None (Some one_slot) = Ok [T3_out; T4_out].
Proof. reflexivity. Qed.

(** Expired fitness and no slot: the missing slot is not reported. *)
Example evaluate_T5 :
  evaluate no_float_of_text [T5] 10 None (Some no_slot) = Ok [T5_out].
Proof. reflexivity. Qed.


Example evaluate_T6_T1 :
  evaluate no_float_of_text [T6; T1] 10 None None = Ok [T6_out; T1_out_after_T6].
Proof. reflexivity. Qed.

Example evaluate_A1_A2 :
  evaluate no_float_of_text [A1; A2] 10 None None = Ok [A1_out_pair; A2_out_pair].
Proof. reflexivity. Qed.

(** A branding priority beyond the floats: line 108 raises. *)
Example evaluate_T8 :
  branding_of T8 = Ok (10 ^ 310)%Z /\
  convertible T8 = false /\
  evaluate no_float_of_text [T1; T8] 10 None None = Raise OverflowError.
Proof. repeat split. Qed.

Example evaluate_A :
  evaluate no_float_of_text [A1; A2; A3] 10 None None
  = Ok [A1_out; A2_out; A3_out].
Proof. reflexivity. Qed.

Example evaluate_Z :
  evaluate no_float_of_text [Z0; Z2] 10 None None = Ok [Z0_out; Z2_out].
Proof. reflexivity. Qed.

(** A roster of one row: the deviation is NaN, [or 1] keeps it, and the
    score is NaN. *)
Example single_row_score_nan :
  evaluate no_float_of_text [T1] 10 None None
  = Ok [evaluated_row "T1" true NaN "OK" 5 (Fin 1000)].
Proof. reflexivity. Qed.

(** ** Witnesses and counterexamples *)


(** With capacity 0, a train whose fitness has expired and that needs
    cleaning is met after the capacity is used up, and its reason does
    not mention the missing slot. *)
Lemma beyond_capacity_counterexample : ~ beyond_capacity_as_stated.
Proof.
  intros H.
  destruct (H no_float_of_text [T5] 10%Z None (Some no_slot) [T5_out]
              0%nat 0%nat T5 T5_out eq_refl eq_refl eq_refl eq_refl eq_refl
              (le_n 0)) as (_ & _ & Hc).
  vm_compute in Hc. discriminate.
Qed.

Lemma cleaning_capacity_respected_witness :
  evaluate no_float_of_text [T3; T4] 10 None (Some one_slot)
  = Ok [T3_out; T4_out] /\
  cleaning_capacity_of (Some one_slot) = Some 1%nat /\
  (eligible_needing_cleaning [T3; T4] [T3_out; T4_out] <= 1)%nat /\
  Evaluated.eligible T4_out = false /\
  contains "Needs cleaning" (Evaluated.reason T4_out) = true /\
  contains "No cleaning slot available" (Evaluated.reason T4_out) = true /\
  evaluate no_float_of_text [T5] 10 None (Some no_slot) = Ok [T5_out] /\
  cleaning_capacity_of (Some no_slot) = Some 0%nat /\
  Evaluated.eligible T5_out = false /\
  Evaluated.reason T5_out = "Expired fitness; Needs cleaning".
Proof.
  split; [reflexivity|]. split; [reflexivity|].
  destruct (cleaning_capacity_respected no_float_of_text [T3; T4] 10 None
              (Some one_slot) [T3_out; T4_out] 1 eq_refl eq_refl)
    as (_ & Hle & Hrows).
  split; [exact Hle|].
  destruct (Hrows 1%nat T4 T4_out eq_refl eq_refl) as (_ & _ & Hbeyond & _).
  destruct (Hbeyond eq_refl eq_refl eq_refl (le_n 1)) as (He & Hn & Hs).
  split; [exact He|]. split; [exact Hn|]. split; [exact Hs|].
  split; [reflexivity|]. split; [reflexivity|].
  destruct (cleaning_capacity_respected no_float_of_text [T5] 10 None
              (Some no_slot) [T5_out] 0 eq_refl eq_refl)
    as (_ & _ & Hrows5).
  destruct (Hrows5 0%nat T5 T5_out eq_refl eq_refl) as (_ & _ & _ & Hblocked).
  destruct (Hblocked eq_refl (or_introl eq_refl)) as (He5 & Hr5 & _).
  split; [exact He5|exact Hr5].
Defined.







Lemma score_monotone_witness :
  evaluate no_float_of_text [A1; A2; A3] 10 None None
  = Ok [A1_out; A2_out; A3_out] /\
  ~ flt (Evaluated.score A1_out) (Evaluated.score A2_out) /\
  ~ flt (Evaluated.score A2_out) (Evaluated.score A3_out).
Proof.
  split; [reflexivity|]. split.
  - apply (score_monotone no_float_of_text [A1; A2; A3] 10 None None
             [A1_out; A2_out; A3_out] 0 1 A1_out A2_out eq_refl eq_refl eq_refl).
    + reflexivity.
    + simpl. lia.
  - apply (score_monotone no_float_of_text [A1; A2; A3] 10 None None
             [A1_out; A2_out; A3_out] 2 1 A3_out A2_out eq_refl eq_refl eq_refl).
    + reflexivity.
    + simpl. lra.
Defined.

Lemma unparsable_date_is_expired_witness :
  parse_day_number "next week" = None /\
  exists out o,
    evaluate no_float_of_text (parse_fitness parse_day_number [R1; R2]) 10
      None None = Ok out /\
    nth_error out 1 = Some o /\
    Evaluated.eligible o = false /\
    contains "Expired fitness" (Evaluated.reason o) = true.
Proof.
  split; [reflexivity|].
  apply (unparsable_date_is_expired parse_day_number no_float_of_text [R1; R2]
           10 None None 1 R2 "next week" eq_refl eq_refl eq_refl eq_refl).
Defined.

Lemma job_card_open_noninterference_witness :
  evaluate no_float_of_text [with_job_card_open true T1; T2] 10 None None
  = evaluate no_float_of_text [T1; with_job_card_open true T2] 10 None None.
Proof.
  apply (job_card_open_noninterference no_float_of_text
           [with_job_card_open true T1; T2] [T1; with_job_card_open true T2]
           10 None None eq_refl).
Defined.

Lemma no_available_column_witness :
  evaluate no_float_of_text [T3; T4] 10 None (Some {| available := None |})
  = Ok [T3_out;
        evaluated_row "T4" true (score_in [300; 500]%R 2 500)
          "Needs cleaning" 2 (Fin 500)] /\
  Evaluated.eligible
    (evaluated_row "T4" true (score_in [300; 500]%R 2 500)
       "Needs cleaning" 2 (Fin 500)) = true.
Proof.
  split; [reflexivity|].
  apply (no_available_column no_float_of_text [T3; T4] 10 None
           [T3_out;
            evaluated_row "T4" true (score_in [300; 500]%R 2 500)
              "Needs cleaning" 2 (Fin 500)]
           1 T4 _ eq_refl eq_refl eq_refl); reflexivity.
Defined.

Lemma insert_by_score_perm r l : Permutation (insert_by_score r l) (r :: l).
Proof.
  induction l as [|x t IH]; simpl; [apply Permutation_refl|].
  destruct (score_geb x r); [|apply Permutation_refl].
  apply (Permutation_trans (l' := x :: r :: t)); [|apply perm_swap].
  constructor. assumption.
Qed.

Lemma sort_by_score_perm l : Permutation (sort_by_score l) l.
Proof.
  induction l as [|r l IH]; simpl; [constructor|].
  apply (Permutation_trans (insert_by_score_perm r _)).
  constructor. assumption.
Qed.

(** The scenario of the specification: one service slot, no standby. *)
Example plan_T1_T2 :
  rank_and_assign sort_by_score [T1_out; T2_out] 1 0
  = Ok {| service := [ {| Plan.evaluated := T1_out; Plan.assignment := Service |} ];
          standby := [];
          remaining := [ {| Plan.evaluated := T2_out;
                            Plan.assignment := Maintenance_Blocked |} ] |}.
Proof. reflexivity. Qed.

Lemma rank_and_assign_partition_witness :
  exists a,
    rank_and_assign sort_by_score [T1_out; T2_out] 5 5 = Ok a /\
    Permutation (map Plan.evaluated (plan a)) [T1_out; T2_out] /\
    List.length (service a) = 1%nat /\
    List.length (standby a) = 0%nat.
Proof.
  destruct (rank_and_assign_partition sort_by_score sort_by_score_perm
              [T1_out; T2_out] 5 5) as (a & Ha & Hperm & Hs & Hb & _).
  - discriminate.
  - lia.
  - lia.
  - exists a. split; [assumption|]. split; [assumption|].
    simpl in Hs, Hb. rewrite Hs in Hb. split; assumption.
Defined.

(** * Further properties *)

(** ** The buckets as slices of the ranking *)

(** What the three buckets are, once the quotas are not negative. *)
Lemma rank_and_assign_buckets
    (sort_values : list Evaluated.row -> list Evaluated.row)
    (evaluated : list Evaluated.row) (sq bq : Z) (a : Allocation) :
  rank_and_assign sort_values evaluated sq bq = Ok a ->
  (0 <= sq)%Z ->
  (0 <= bq)%Z ->
  let E := sort_values (filter Evaluated.eligible evaluated) in
  let x := Nat.min (Z.to_nat sq) (List.length E) in
  let y := Nat.min (Z.to_nat (sq + bq)) (List.length E) in
  evaluated <> [] /\
  (x <= y)%nat /\
  service a = assign Service (firstn x E) /\
  standby a = assign Standby (firstn (y - x) (skipn x E)) /\
  remaining a
  = assign Maintenance_Blocked
      (skipn y E ++ filter (fun r => negb (Evaluated.eligible r)) evaluated).
Proof.
  intros H Hs Hb E x y.
  assert (Hne : evaluated <> []).
  { intros ->. discriminate H. }
  split; [assumption|].
  split; [unfold x, y; lia|].
  assert (Hcol : eligible_column evaluated = Ok (map Evaluated.eligible evaluated)).
  { destruct evaluated; [congruence|reflexivity]. }
  unfold rank_and_assign in H. rewrite Hcol in H. unfold bind in H.
  rewrite select_filter, select_filter_negb in H.
  unfold head, iloc, iloc_from in H.
  rewrite !clip_nonneg in H by lia. simpl skipn in H.
  rewrite Nat.sub_0_r in H.
  inversion H. simpl. repeat split; reflexivity.
Qed.

Lemma StronglySorted_app_inv {A : Type} (R : A -> A -> Prop) (l1 l2 : list A) :
  StronglySorted R (l1 ++ l2) ->
  StronglySorted R l1 /\ StronglySorted R l2 /\
  forall a b, In a l1 -> In b l2 -> R a b.
Proof.
  induction l1 as [|h l1 IH]; simpl; intros H.
  - repeat split; [constructor|assumption|contradiction].
  - apply StronglySorted_inv in H. destruct H as [Hs Hf].
    destruct (IH Hs) as (H1 & H2 & H12).
    rewrite Forall_app in Hf. destruct Hf as [Hf1 Hf2].
    repeat split.
    + constructor; assumption.
    + assumption.
    + intros a b [<-|Ha] Hb.
      * rewrite Forall_forall in Hf2. apply Hf2. assumption.
      * apply H12; assumption.
Qed.

Lemma in_assign (a : assignment) (l : list Evaluated.row) (p : Plan.row) :
  In p (assign a l) -> In (Plan.evaluated p) l /\ Plan.assignment p = a.
Proof.
  unfold assign. intros H. apply in_map_iff in H.
  destruct H as (r & <- & Hr). split; [assumption|reflexivity].
Qed.

Section Ranking.

Variable sort_values : list Evaluated.row -> list Evaluated.row.
Hypothesis sort_values_sorted :
  forall l, StronglySorted score_ge (sort_values l).

(** X2.  When [sort_values] sorts by descending score, the ranking decides the
    buckets: every Service train stands before every Standby train, and
    both stand before every eligible train left to Maintenance/Blocked. *)
Theorem buckets_follow_ranking
    (evaluated : list Evaluated.row) (sq bq : Z) (a : Allocation) :
  rank_and_assign sort_values evaluated sq bq = Ok a ->
  (0 <= sq)%Z ->
  (0 <= bq)%Z ->
  (forall p q, In p (service a) -> In q (standby a) ->
     score_ge (Plan.evaluated p) (Plan.evaluated q)) /\
  (forall p q, In p (service a) \/ In p (standby a) ->
     In q (remaining a) ->
     Evaluated.eligible (Plan.evaluated q) = true ->
     score_ge (Plan.evaluated p) (Plan.evaluated q)).
Proof.
  intros H Hs Hb.
  destruct (rank_and_assign_buckets _ _ _ _ _ H Hs Hb)
    as (_ & Hxy & Hsv & Hst & Hrm).
  set (E := sort_values (filter Evaluated.eligible evaluated)) in *.
  set (x := Nat.min (Z.to_nat sq) (List.length E)) in *.
  set (y := Nat.min (Z.to_nat (sq + bq)) (List.length E)) in *.
  assert (HE : StronglySorted score_ge
                 (firstn x E ++ firstn (y - x) (skipn x E) ++ skipn y E)).
  { rewrite (slices_cover E x y Hxy). apply sort_values_sorted. }
  apply StronglySorted_app_inv in HE. destruct HE as (_ & H23 & H1).
  apply StronglySorted_app_inv in H23. destruct H23 as (_ & _ & H2).
  assert (Hq : forall q, In q (remaining a) ->
             Evaluated.eligible (Plan.evaluated q) = true ->
             In (Plan.evaluated q) (skipn y E)).
  { intros q Hq Hel. rewrite Hrm in Hq. apply in_assign in Hq.
    destruct Hq as [Hq _]. apply in_app_or in Hq.
    destruct Hq as [Hq|Hq]; [assumption|].
    apply filter_In in Hq. destruct Hq as [_ Hq].
    rewrite Hel in Hq. discriminate. }
  split.
  - intros p q Hp Hq'. rewrite Hsv in Hp. rewrite Hst in Hq'.
    apply in_assign in Hp. apply in_assign in Hq'.
    apply H1; [apply Hp|]. apply in_or_app. left. apply Hq'.
  - intros p q [Hp|Hp] Hq' Hel.
    + rewrite Hsv in Hp. apply in_assign in Hp.
      apply H1; [apply Hp|]. apply in_or_app. right. apply Hq; assumption.
    + rewrite Hst in Hp. apply in_assign in Hp.
      apply H2; [apply Hp|]. apply Hq; assumption.
Qed.

End Ranking.

(** X3.  With quotas that cover every eligible train, Maintenance/Blocked
    holds the ineligible trains and nothing else, in input order; with a
    service quota that covers them all, Standby is empty as well. *)
Theorem quotas_cover_eligible
    (sort_values : list Evaluated.row -> list Evaluated.row)
    (evaluated : list Evaluated.row) (sq bq : Z) (a : Allocation) :
  rank_and_assign sort_values evaluated sq bq = Ok a ->
  (0 <= sq)%Z ->
  (0 <= bq)%Z ->
  let n := List.length (sort_values (filter Evaluated.eligible evaluated)) in
  ((Z.of_nat n <= sq + bq)%Z ->
   map Plan.evaluated (remaining a)
   = filter (fun r => negb (Evaluated.eligible r)) evaluated) /\
  ((Z.of_nat n <= sq)%Z -> standby a = []).
Proof.
  intros H Hs Hb n.
  destruct (rank_and_assign_buckets _ _ _ _ _ H Hs Hb)
    as (_ & Hxy & _ & Hst & Hrm).
  fold n in Hxy, Hst, Hrm. split.
  - intros Hn. rewrite Hrm, assign_evaluated.
    rewrite skipn_all2; [reflexivity|]. fold n. lia.
  - intros Hn. rewrite Hst.
    replace (Nat.min (Z.to_nat (sq + bq)) n - Nat.min (Z.to_nat sq) n)%nat
      with 0%nat by lia.
    reflexivity.
Qed.

(** X4.  The three numbers of the summary add up to the number of evaluated
    trains, which is also the number of rows of the plan. *)
Theorem summary_metrics_total
    (sort_values : list Evaluated.row -> list Evaluated.row)
    (evaluated : list Evaluated.row) (sq bq : Z) (a : Allocation) :
  (forall l, List.length (sort_values l) = List.length l) ->
  rank_and_assign sort_values evaluated sq bq = Ok a ->
  (0 <= sq)%Z ->
  (0 <= bq)%Z ->
  let '(n_service, n_standby, n_remaining) := summary_metrics a in
  (n_service + n_standby + n_remaining)%nat = List.length evaluated /\
  List.length (plan a) = List.length evaluated.
Proof.
  intros Hlen H Hs Hb.
  destruct (rank_and_assign_buckets _ _ _ _ _ H Hs Hb)
    as (_ & Hxy & Hsv & Hst & Hrm).
  set (E := sort_values (filter Evaluated.eligible evaluated)) in *.
  set (x := Nat.min (Z.to_nat sq) (List.length E)) in *.
  set (y := Nat.min (Z.to_nat (sq + bq)) (List.length E)) in *.
  unfold summary_metrics, plan. rewrite !length_app, Hsv, Hst, Hrm.
  unfold assign. rewrite !length_map, length_app, !length_firstn, !length_skipn.
  assert (HE : List.length E = List.length (filter Evaluated.eligible evaluated))
    by apply Hlen.
  assert (Hsplit : (List.length (filter Evaluated.eligible evaluated)
                    + List.length (filter (fun r => negb (Evaluated.eligible r))
                                     evaluated))%nat
                   = List.length evaluated).
  { rewrite <- length_app. apply Permutation_length, filter_split_perm. }
  assert (Hx : (x <= List.length E)%nat) by (unfold x; lia).
  assert (Hy : (y <= List.length E)%nat) by (unfold y; lia).
  split; lia.
Qed.

(** ** More on [evaluate] *)

Lemma iterrows_echo float_of_text today jc cap mean std :
  forall df st st',
    iterrows float_of_text today jc cap mean std st df = Ok st' ->
    map Evaluated.train_id (rows st')
    = map Evaluated.train_id (rows st) ++ map Roster.train_id df /\
    map Evaluated.bay_position (rows st')
    = map Evaluated.bay_position (rows st) ++ map Roster.bay_position df.
Proof.
  induction df as [|r rest IH]; intros st st' H; simpl in H.
  - inversion H. simpl. rewrite !app_nil_r. split; reflexivity.
  - unfold loop_body in H.
    destruct (branding_of r) as [b|e]; simpl in H; [|discriminate].
    destruct (mileage_of float_of_text r) as [m|e]; simpl in H; [|discriminate].
    destruct (score_of mean std b m) as [s|e]; simpl in H; [|discriminate].
    apply IH in H. simpl in H. destruct H as [H1 H2].
    rewrite H1, H2, !map_app, <- !app_assoc. split; reflexivity.
Qed.

Lemma evaluate_echo float_of_text df today jc cs out :
  evaluate float_of_text df today jc cs = Ok out ->
  map Evaluated.train_id out = map Roster.train_id df /\
  map Evaluated.bay_position out = map Roster.bay_position df.
Proof.
  unfold evaluate. intros Hev.
  destruct (series_mean _) as [mean|]; simpl in Hev; [|discriminate].
  destruct (series_std _) as [std|]; simpl in Hev; [|discriminate].
  destruct (iterrows _ _ _ _ _ _ _ _) as [st|] eqn:Hloop; simpl in Hev;
    [|discriminate].
  inversion Hev; subst out. apply iterrows_echo in Hloop. exact Hloop.
Qed.

(** X5.  The frame [evaluate] returns has the rows of the roster, one for
    one and in the same order: same length, same [train_id] and
    [bay_position] column. *)
Theorem evaluate_keeps_rows
    (float_of_text : string -> result pyfloat)
    (df : list Train) (today : Z) (job_cards : option JobCards)
    (cleaning_slots : option CleaningSlots) (out : list Evaluated.row) :
  evaluate float_of_text df today job_cards cleaning_slots = Ok out ->
  List.length out = List.length df /\
  map Evaluated.train_id out = map Roster.train_id df /\
  map Evaluated.bay_position out = map Roster.bay_position df.
Proof.
  intros Hev. pose proof (evaluate_echo _ _ _ _ _ _ Hev) as Hid.
  split; [|exact Hid].
  destruct Hid as [Hid _].
  rewrite <- (length_map Evaluated.train_id), Hid. apply length_map.
Qed.

(** ** First come, first served *)

Lemma check_row_used_candidate today jc capacity used r :
  c_cleaning_used (check_row today jc (Some capacity) used r)
  = (used + if cleaning_candidate today jc r && (used <? capacity)%nat
            then 1 else 0)%nat.
Proof. rewrite check_row_used. reflexivity. Qed.

(** The counter is the number of candidates met so far, stopped at the
    capacity. *)
Lemma used_after_candidates today jc capacity :
  forall df used,
    (used <= capacity)%nat ->
    used_after today jc (Some capacity) used df
    = Nat.min capacity
        (used + List.length (filter (cleaning_candidate today jc) df)).
Proof.
  induction df as [|r rest IH]; intros used Hle.
  - simpl. lia.
  - rewrite used_after_cons, check_row_used_candidate. simpl filter.
    destruct (cleaning_candidate today jc r); simpl.
    + destruct (used <? capacity)%nat eqn:E.
      * apply Nat.ltb_lt in E. rewrite IH by lia. simpl. lia.
      * apply Nat.ltb_ge in E. rewrite IH by lia. simpl. lia.
    + rewrite IH by lia. lia.
Qed.

Lemma used_after_unlimited today jc :
  forall df used, used_after today jc None used df = used.
Proof.
  induction df as [|r rest IH]; intros used; [reflexivity|].
  rewrite used_after_cons, check_row_used, Nat.add_0_r. apply IH.
Qed.

(** The [eligible] column without the counter: a train is eligible when
    its fitness is valid, it has no job card, and it needs no cleaning or
    fewer candidates than there are slots come before it in the input. *)
Lemma eligible_closed_form float_of_text df today jc cs out i r o :
  evaluate float_of_text df today jc cs = Ok out ->
  nth_error df i = Some r ->
  nth_error out i = Some o ->
  Evaluated.eligible o
  = negb (fitness_expired today r) && negb (has_job_card jc r)
    && (negb (Roster.needs_cleaning r)
        || match cleaning_capacity_of cs with
           | Some capacity => (candidates_before today jc df i <? capacity)%nat
           | None => true
           end).
Proof.
  intros Hev Hr Ho.
  destruct (evaluate_checked _ _ _ _ _ _ _ _ _ Hev Hr Ho) as (Hel & _).
  rewrite Hel, check_row_eligible. f_equal. f_equal.
  unfold slot_available, used_before.
  destruct (cleaning_capacity_of cs) as [capacity|]; [|reflexivity].
  rewrite used_after_candidates by lia. simpl.
  unfold candidates_before.
  set (k := List.length (filter (cleaning_candidate today jc) (firstn i df))).
  destruct (k <? capacity)%nat eqn:E.
  - apply Nat.ltb_lt in E. apply Nat.ltb_lt. lia.
  - apply Nat.ltb_ge in E. apply Nat.ltb_ge. lia.
Qed.

(** X7.  With a known capacity, the slots go to the first trains of the input
    that need cleaning and pass the fitness and job-card checks: such a
    train stays eligible exactly when fewer of them than there are slots
    come before it. *)
Theorem slots_first_come
    (float_of_text : string -> result pyfloat)
    (df : list Train) (today : Z) (job_cards : option JobCards)
    (cleaning_slots : option CleaningSlots) (out : list Evaluated.row)
    (capacity i : nat) (r : Train) (o : Evaluated.row) :
  evaluate float_of_text df today job_cards cleaning_slots = Ok out ->
  cleaning_capacity_of cleaning_slots = Some capacity ->
  nth_error df i = Some r ->
  nth_error out i = Some o ->
  cleaning_candidate today job_cards r = true ->
  (Evaluated.eligible o = true <->
   (candidates_before today job_cards df i < capacity)%nat).
Proof.
  intros Hev Hcap Hr Ho Hc.
  rewrite (eligible_closed_form _ _ _ _ _ _ _ _ _ Hev Hr Ho), Hcap.
  unfold cleaning_candidate in Hc.
  apply andb_true_iff in Hc. destruct Hc as [Hc Hj].
  apply andb_true_iff in Hc. destruct Hc as [Hn Hf].
  rewrite Hn, Hf, Hj. simpl. apply Nat.ltb_lt.
Qed.

(** X8.  More room never costs a train its eligibility: on the same roster,
    a train that is eligible under one cleaning capacity is eligible
    under any larger one, and under an unknown one. *)
Theorem more_capacity_keeps_eligible
    (float_of_text : string -> result pyfloat)
    (df : list Train) (today : Z) (job_cards : option JobCards)
    (cs cs' : option CleaningSlots) (out out' : list Evaluated.row)
    (i : nat) (o o' : Evaluated.row) :
  capacity_le (cleaning_capacity_of cs) (cleaning_capacity_of cs') ->
  evaluate float_of_text df today job_cards cs = Ok out ->
  evaluate float_of_text df today job_cards cs' = Ok out' ->
  nth_error out i = Some o ->
  nth_error out' i = Some o' ->
  Evaluated.eligible o = true ->
  Evaluated.eligible o' = true.
Proof.
  intros Hle Hev Hev' Ho Ho' Hel.
  destruct (nth_error df i) as [r|] eqn:Hr.
  - rewrite (eligible_closed_form _ _ _ _ _ _ _ _ _ Hev Hr Ho) in Hel.
    rewrite (eligible_closed_form _ _ _ _ _ _ _ _ _ Hev' Hr Ho').
    apply andb_true_iff in Hel. destruct Hel as [Hfj Hc].
    rewrite Hfj. simpl.
    apply orb_true_iff in Hc. apply orb_true_iff.
    destruct Hc as [Hc|Hc]; [left; assumption|right].
    destruct (cleaning_capacity_of cs) as [c|],
             (cleaning_capacity_of cs') as [c'|];
      simpl in Hle; try reflexivity; try contradiction.
    apply Nat.ltb_lt in Hc. apply Nat.ltb_lt. lia.
  - apply nth_error_None in Hr.
    destruct (evaluate_rows _ _ _ _ _ _ Hev) as (mean & std & _ & _ & Hlen & _).
    assert (i < List.length out)%nat by (apply nth_error_Some; congruence).
    lia.
Qed.

(** ** What the reason column can say *)

Lemma check_row_reason_ok today jc cap used r :
  let c := check_row today jc cap used r in
  (join_reason (c_reason c) = "OK" <->
   fitness_expired today r = false /\ has_job_card jc r = false /\
   Roster.needs_cleaning r = false) /\
  (c_eligible c = true ->
   join_reason (c_reason c) = "OK" \/ join_reason (c_reason c) = "Needs cleaning").
Proof.
  unfold check_row, fitness_expired, has_job_card.
  destruct (match Roster.fitness_valid_until r with
            | Some d => (d <? today)%Z | None => true end);
    (destruct jc as [jc|]; [destruct (isin _ _)|]);
    destruct (Roster.needs_cleaning r);
    (destruct cap as [capacity|]; [try destruct (used <? capacity)%nat|]);
    simpl; (split; [split|]);
    try (intros H; discriminate H);
    try (intros (H1 & H2 & H3); discriminate);
    try (intros _; repeat split; reflexivity);
    try (intros _; left; reflexivity);
    try (intros _; right; reflexivity);
    try reflexivity.
Qed.

(** X9.  The reason of a train is "OK" exactly when its fitness is valid, it
    has no job card and it needs no cleaning; an eligible train shows
    "OK" or "Needs cleaning" and nothing else. *)
Theorem reason_of_eligible
    (float_of_text : string -> result pyfloat)
    (df : list Train) (today : Z) (job_cards : option JobCards)
    (cleaning_slots : option CleaningSlots) (out : list Evaluated.row)
    (i : nat) (r : Train) (o : Evaluated.row) :
  evaluate float_of_text df today job_cards cleaning_slots = Ok out ->
  nth_error df i = Some r ->
  nth_error out i = Some o ->
  (Evaluated.reason o = "OK" <->
   fitness_expired today r = false /\ has_job_card job_cards r = false /\
   Roster.needs_cleaning r = false) /\
  (Evaluated.eligible o = true ->
   Evaluated.reason o = "OK" \/ Evaluated.reason o = "Needs cleaning").
Proof.
  intros Hev Hr Ho.
  destruct (evaluate_checked _ _ _ _ _ _ _ _ _ Hev Hr Ho) as (Hel & Hre).
  rewrite Hel, Hre. apply check_row_reason_ok.
Qed.

(** ** The what-if re-run *)

Lemma plan_permutation
    (sort_values : list Evaluated.row -> list Evaluated.row)
    (evaluated : list Evaluated.row) (sq bq : Z) (a : Allocation) :
  (forall l, Permutation (sort_values l) l) ->
  rank_and_assign sort_values evaluated sq bq = Ok a ->
  (0 <= sq)%Z ->
  (0 <= bq)%Z ->
  Permutation (map Plan.evaluated (plan a)) evaluated.
Proof.
  intros Hperm H Hs Hb.
  destruct (rank_and_assign_buckets _ _ _ _ _ H Hs Hb)
    as (_ & Hxy & Hsv & Hst & Hrm).
  unfold plan. rewrite Hsv, Hst, Hrm, !map_app, !assign_evaluated, !app_assoc.
  rewrite <- (app_assoc (firstn _ _)), (slices_cover _ _ _ Hxy).
  eapply Permutation_trans; [|apply (filter_split_perm Evaluated.eligible)].
  apply Permutation_app_tail, Hperm.
Qed.

(** X11.  The "Updated Service List" of the re-run is the [train_id] column of
    the Service bucket that lines 130-134 compute for the edited roster,
    whatever the standby count; where one of the two raises, so does the
    other, with the same exception. *)
Theorem rerun_service_is_plan_service
    (parse_datetime : string -> option Z)
    (float_of_text : string -> result pyfloat)
    (sort_values : list Evaluated.row -> list Evaluated.row)
    (edited : list (Roster.row date_cell)) (today : Z)
    (job_cards : option JobCards) (cleaning_slots : option CleaningSlots)
    (sq bq : Z) :
  (res <- rerun parse_datetime float_of_text sort_values edited today
            job_cards cleaning_slots sq ;;
   Ok (fst res))
  = (evaluated <- evaluate float_of_text (parse_fitness parse_datetime edited)
                    today job_cards cleaning_slots ;;
     a <- rank_and_assign sort_values evaluated sq bq ;;
     Ok (map (fun p => Evaluated.train_id (Plan.evaluated p)) (service a))).
Proof.
  unfold rerun, rank_and_assign.
  destruct (evaluate _ _ _ _ _) as [ev|e]; [simpl|reflexivity].
  destruct (eligible_column ev) as [mask|e]; [simpl|reflexivity].
  unfold assign. rewrite map_map. reflexivity.
Qed.

Lemma parse_fitness_as_edited parse_datetime (df : list Train) :
  parse_fitness parse_datetime (map as_edited df) = df.
Proof.
  unfold parse_fitness. rewrite map_map.
  rewrite <- (map_id df) at 2. apply map_ext.
  intros [id [t|] jco b m n bay]; reflexivity.
Qed.

(** X12.  Parsing the dates again changes nothing in a frame that is already
    parsed, whatever the parser does on text; so a re-run on the table as
    it stands, without an edit, gives the Service bucket of the plan on
    display. *)
Theorem rerun_without_edit
    (parse_datetime : string -> option Z)
    (float_of_text : string -> result pyfloat)
    (sort_values : list Evaluated.row -> list Evaluated.row)
    (df : list Train) (today : Z)
    (job_cards : option JobCards) (cleaning_slots : option CleaningSlots)
    (sq bq : Z) :
  parse_fitness parse_datetime (map as_edited df) = df /\
  (res <- rerun parse_datetime float_of_text sort_values (map as_edited df)
            today job_cards cleaning_slots sq ;;
   Ok (fst res))
  = (evaluated <- evaluate float_of_text df today job_cards cleaning_slots ;;
     a <- rank_and_assign sort_values evaluated sq bq ;;
     Ok (map (fun p => Evaluated.train_id (Plan.evaluated p)) (service a))).
Proof.
  split; [apply parse_fitness_as_edited|].
  unfold rerun, rank_and_assign. rewrite parse_fitness_as_edited.
  destruct (evaluate _ _ _ _ _) as [ev|e]; [simpl|reflexivity].
  destruct (eligible_column ev) as [mask|e]; [simpl|reflexivity].
  unfold assign. rewrite map_map. reflexivity.
Qed.

Section Preview.

Variable sort_values : list Evaluated.row -> list Evaluated.row.
Hypothesis sort_values_perm : forall l, Permutation (sort_values l) l.
Hypothesis sort_values_sorted :
  forall l, StronglySorted score_ge (sort_values l).

(** X13.  The rows shown under the "Updated Service List" are the head of the
    ranking of the new evaluation: ten of them, or all when there are
    fewer, and each stands before every row that is not shown. *)
Theorem rerun_preview_is_top_ten
    (parse_datetime : string -> option Z)
    (float_of_text : string -> result pyfloat)
    (edited : list (Roster.row date_cell)) (today : Z)
    (job_cards : option JobCards) (cleaning_slots : option CleaningSlots)
    (sq : Z) (ids : list string) (preview : list Evaluated.row) :
  rerun parse_datetime float_of_text sort_values edited today job_cards
    cleaning_slots sq = Ok (ids, preview) ->
  exists new_eval hidden,
    evaluate float_of_text (parse_fitness parse_datetime edited) today
      job_cards cleaning_slots = Ok new_eval /\
    List.length preview = Nat.min 10 (List.length edited) /\
    Permutation (preview ++ hidden) new_eval /\
    forall p h, In p preview -> In h hidden -> score_ge p h.
Proof.
  unfold rerun. intros H.
  destruct (evaluate _ _ _ _ _) as [ev|e] eqn:Hev; [simpl in H|discriminate].
  destruct (eligible_column ev) as [mask|e]; [simpl in H|discriminate].
  inversion H as [[Hids Hprev]]. clear H Hids.
  unfold head, iloc in *. rewrite !clip_nonneg in * by lia.
  simpl skipn in *. rewrite Nat.sub_0_r in *.
  set (k := Nat.min (Z.to_nat 10) (List.length (sort_values ev))) in *.
  exists ev, (skipn k (sort_values ev)).
  split; [reflexivity|].
  assert (Hlen : List.length (sort_values ev) = List.length edited).
  { rewrite (Permutation_length (sort_values_perm ev)).
    destruct (evaluate_rows _ _ _ _ _ _ Hev) as (mean & std & _ & _ & Hl & _).
    rewrite Hl. unfold parse_fitness. apply length_map. }
  split; [|split].
  - rewrite length_firstn. unfold k. rewrite Hlen.
    change (Z.to_nat 10) with 10%nat. lia.
  - rewrite firstn_skipn. apply sort_values_perm.
  - pose proof (sort_values_sorted ev) as Hs.
    rewrite <- (firstn_skipn k (sort_values ev)) in Hs.
    apply StronglySorted_app_inv in Hs. apply Hs.
Qed.

End Preview.

(** ** Filling in missing columns *)

(** X14.  After lines 56-59 the frame has every column of the schema.  The
    columns it came with stand where they stood, with their cells; each
    column it lacked is added behind them, in schema order, holding the
    default in every row, with one warning for it; no row is added or
    lost, and a rectangular frame stays rectangular. *)
Theorem fill_defaults_completes (today : option Z) (df : Frame) :
  let '(df', warnings) := fill_defaults today df in
  warnings = missing_columns (expected_cols today) df /\
  index_len df' = index_len df /\
  columns df' = columns df ++ default_columns (index_len df) warnings /\
  (forall entry, In entry (expected_cols today) ->
                 has_column (fst entry) df' = true) /\
  (rectangular df -> rectangular df').
Proof.
  pose proof (fill_defaults_has_column today df) as Hall.
  rewrite fill_defaults_eq in *. simpl fst in Hall.
  split; [reflexivity|]. split; [reflexivity|]. split; [reflexivity|]. split.
  - intros entry Hin. apply Hall. apply in_map. assumption.
  - unfold rectangular. simpl. intros Hrect. apply Forall_app. split.
    + assumption.
    + unfold default_columns. apply Forall_map, Forall_forall.
      intros entry _. simpl. apply repeat_length.
Qed.

(** X15.  A second pass of lines 56-59 does nothing: no warning, no change; a
    column that is there is never overwritten, even when the default for
    the date has changed in between. *)
Theorem fill_defaults_idempotent (today today' : option Z) (df : Frame) :
  fill_defaults today' (fst (fill_defaults today df))
  = (fst (fill_defaults today df), []).
Proof.
  assert (Hnone : missing_columns (expected_cols today')
                    (fst (fill_defaults today df)) = []).
  { unfold missing_columns.
    apply filter_none. intros entry Hin.
    rewrite (fill_defaults_has_column today df (fst entry));
      [reflexivity|].
    change (map fst (expected_cols today))
      with (map fst (expected_cols today')).
    apply in_map. assumption. }
  rewrite (fill_defaults_eq today'), Hnone. simpl.
  rewrite app_nil_r. destruct (fst (fill_defaults today df)); reflexivity.
Qed.

(** ** From upload to plan *)

Section ScriptFacts.

Variable to_datetime : string -> result (option Z).
Variable parse_datetime : string -> option Z.
Variable float_of_text : string -> result pyfloat.
Variable sort_values : list Evaluated.row -> list Evaluated.row.

(** X16.  The message "Invalid date format" of line 124 is shown exactly when a
    roster was uploaded and the date text parses to NaT without an error.
    A date text on which [pd.to_datetime] raises never gets that far: the
    run ends at line 48 with that exception. *)
Theorem invalid_date_message
    (uploaded_trainsets : option (list (Roster.row date_cell)))
    (job_cards : option JobCards) (cleaning_slots : option CleaningSlots)
    (sq bq : Z) (today_str : string) :
  (run_script to_datetime parse_datetime float_of_text sort_values
     uploaded_trainsets job_cards cleaning_slots sq bq today_str
   = Stopped InvalidDateFormat
   <-> uploaded_trainsets <> None /\ to_datetime today_str = Ok None) /\
  (forall e, uploaded_trainsets <> None ->
             to_datetime today_str = Raise e ->
             run_script to_datetime parse_datetime float_of_text sort_values
               uploaded_trainsets job_cards cleaning_slots sq bq today_str
             = Crashed e).
Proof.
  unfold run_script, to_datetime_or_nat.
  destruct uploaded_trainsets as [df|].
  - destruct (to_datetime today_str) as [[today|]|e] eqn:Hd.
    + split.
      * split.
        -- destruct (bind _ _); discriminate.
        -- intros [_ H]. discriminate H.
      * intros e _ H. discriminate H.
    + split.
      * split; [intros _; split; [discriminate|reflexivity]|reflexivity].
      * intros e _ H. discriminate H.
    + split.
      * split; [discriminate|intros [_ H]; discriminate H].
      * intros e' _ H. inversion H. reflexivity.
  - split.
    + split; [discriminate|intros [H _]; congruence].
    + intros e H. congruence.
Qed.

Hypothesis sort_values_perm : forall l, Permutation (sort_values l) l.

(** X17.  From a roster with at least one row, all rows convertible, a date
    that parses and quotas that are not negative, the script reaches its
    plan, and the plan lists every uploaded train exactly once. *)
Theorem script_plans_every_train
    (df : list (Roster.row date_cell))
    (job_cards : option JobCards) (cleaning_slots : option CleaningSlots)
    (sq bq : Z) (today_str : string) (today : Z) :
  df <> [] ->
  forallb convertible (parse_fitness parse_datetime df) = true ->
  to_datetime today_str = Ok (Some today) ->
  (0 <= sq)%Z ->
  (0 <= bq)%Z ->
  exists a,
    run_script to_datetime parse_datetime float_of_text sort_values
      (Some df) job_cards cleaning_slots sq bq today_str = Rendered a /\
    Permutation
      (map (fun p => Evaluated.train_id (Plan.evaluated p)) (plan a))
      (map Roster.train_id df) /\
    List.length (plan a) = List.length df.
Proof.
  intros Hne Hconv Hdate Hs Hb.
  unfold run_script, to_datetime_or_nat. rewrite Hdate.
  destruct (evaluate_ok float_of_text _ today job_cards cleaning_slots Hconv)
    as [ev Hev].
  rewrite Hev. simpl bind.
  destruct (evaluate_rows _ _ _ _ _ _ Hev) as (mean & std & _ & _ & Hlen & _).
  assert (Hlen' : List.length ev = List.length df).
  { rewrite Hlen. unfold parse_fitness. apply length_map. }
  destruct (rank_and_assign sort_values ev sq bq) as [a|e] eqn:Hra.
  - exists a. split; [reflexivity|].
    pose proof (plan_permutation _ _ _ _ _ sort_values_perm Hra Hs Hb) as Hp.
    split.
    + rewrite <- (map_map Plan.evaluated Evaluated.train_id).
      apply (Permutation_map Evaluated.train_id) in Hp.
      apply (Permutation_trans Hp).
      destruct (evaluate_echo _ _ _ _ _ _ Hev) as [Hid _].
      rewrite Hid. unfold parse_fitness. rewrite map_map. simpl.
      apply Permutation_refl.
    + rewrite <- Hlen', <- (length_map Plan.evaluated).
      apply Permutation_length. assumption.
  - exfalso. unfold rank_and_assign, eligible_column in Hra.
    destruct ev as [|r0 ev']; [|discriminate].
    simpl in Hlen'. destruct df; [congruence|discriminate].
Qed.

End ScriptFacts.

(** ** The sample data *)

Example train_ids_first_last :
  nth_error train_ids 0 = Some "TS01" /\ nth_error train_ids 9 = Some "TS10" /\
  nth_error train_ids 24 = Some "TS25" /\ List.length train_ids = 25%nat.
Proof. repeat split; reflexivity. Qed.

Lemma train_ids_NoDup : NoDup train_ids.
Proof.
  unfold train_ids, n_trains. simpl.
  repeat (constructor;
          [simpl; intros H;
           repeat (destruct H as [H|H]; [discriminate H|]); exact H|]).
  constructor.
Qed.

Lemma sample_job_cards_ids (severity : nat -> string) :
  forall ids flags k x,
    In x (map (fun card => fst (fst card))
            (sample_job_cards severity k (combine ids flags))) ->
    In x ids.
Proof.
  induction ids as [|id0 ids IH]; intros flags k x H; [contradiction|].
  destruct flags as [|f0 flags]; [contradiction|].
  simpl in H. destruct f0.
  - destruct H as [<-|H]; [left; reflexivity|right; apply (IH _ _ _ H)].
  - right. apply (IH _ _ _ H).
Qed.

(** A train has a card exactly when its flag is set. *)
Lemma sample_job_cards_isin (severity : nat -> string) :
  forall ids flags k i tid flag,
    NoDup ids ->
    nth_error ids i = Some tid ->
    nth_error flags i = Some flag ->
    isin tid (map (fun card => fst (fst card))
                (sample_job_cards severity k (combine ids flags)))
    = flag.
Proof.
  induction ids as [|id0 ids IH]; intros flags k i tid flag Hnd Hid Hflag.
  - destruct i; discriminate.
  - destruct flags as [|f0 flags]; [destruct i; discriminate|].
    inversion Hnd as [|x l Hnotin Hnd']; subst.
    destruct i as [|i]; simpl in Hid, Hflag.
    + inversion Hid; inversion Hflag; subst. simpl. destruct flag.
      * simpl. unfold isin. simpl. rewrite String.eqb_refl. reflexivity.
      * destruct (isin tid _) eqn:E; [|reflexivity].
        apply isin_In in E. apply sample_job_cards_ids in E. contradiction.
    + assert (Hne : String.eqb tid id0 = false).
      { apply String.eqb_neq. intros ->. apply Hnotin.
        apply (nth_error_In _ _ Hid). }
      simpl. destruct f0.
      * unfold isin. simpl. rewrite Hne. simpl.
        apply (IH flags (S k) i tid flag Hnd' Hid Hflag).
      * apply (IH flags k i tid flag Hnd' Hid Hflag).
Qed.

Lemma nth_error_combine {A B : Type} (l : list A) (l' : list B) i p :
  nth_error (combine l l') i = Some p ->
  nth_error l i = Some (fst p) /\ nth_error l' i = Some (snd p).
Proof.
  revert l' i. induction l as [|a l IH]; intros l' i H.
  - destruct i; discriminate.
  - destruct l' as [|b l']; [destruct i; discriminate|].
    destruct i as [|i]; simpl in *.
    + inversion H. split; reflexivity.
    + apply IH. assumption.
Qed.

(** X18.  The generated tables agree with each other.  With the day of
    generation as reference date, the fitness check of the planner fails
    on a sample train exactly when its date was drawn in the past; and the
    job-card table, when one comes out of the generator, holds a card for
    a sample train exactly when its [job_card_open] flag is set.  No
    table comes out only when no flag is set. *)
Theorem sample_data_consistent
    (today : Z) (severity : nat -> string) (draws : list TrainDraw)
    (i : nat) (r : Train) (d : TrainDraw) :
  (forall d', In d' draws -> (1 <= days_draw d')%Z) ->
  nth_error (sample_trainsets today draws) i = Some r ->
  nth_error draws i = Some d ->
  fitness_expired today r = negb (valid_draw d) /\
  Roster.job_card_open r = open_draw d /\
  match sample_job_frame severity draws with
  | Some job_cards => has_job_card (Some job_cards) r = open_draw d
  | None => open_draw d = false
  end.
Proof.
  intros Hdays Hr Hd.
  unfold sample_trainsets in Hr. rewrite nth_error_map in Hr.
  destruct (nth_error (combine train_ids draws) i) as [[tid d']|] eqn:Hp;
    [|discriminate].
  simpl in Hr. inversion Hr; subst r. clear Hr.
  apply nth_error_combine in Hp. simpl in Hp. destruct Hp as [Hid Hd'].
  rewrite Hd in Hd'. inversion Hd'; subst d'. clear Hd'.
  split; [|split].
  - unfold fitness_expired, sample_train. simpl.
    pose proof (Hdays d (nth_error_In _ _ Hd)) as Hge.
    destruct (valid_draw d); simpl.
    + apply Z.ltb_ge. lia.
    + apply Z.ltb_lt. lia.
  - reflexivity.
  - assert (Hcards :
      isin tid
        (map (fun card => fst (fst card))
           (sample_job_cards severity 0
              (combine train_ids (map open_draw draws))))
      = open_draw d).
    { apply (sample_job_cards_isin severity train_ids (map open_draw draws)
               0 i tid (open_draw d) train_ids_NoDup Hid).
      rewrite nth_error_map, Hd. reflexivity. }
    unfold sample_job_frame.
    destruct (sample_job_cards severity 0
                (combine train_ids (map open_draw draws))) as [|card cards].
    + simpl in Hcards. congruence.
    + unfold has_job_card, job_train_ids. simpl Roster.train_id.
      rewrite map_map. exact Hcards.
Qed.

(** ** The sort of the worked runs is a descending sort *)

Lemma score_geb_true a b : score_geb a b = true -> score_ge a b.
Proof.
  unfold score_geb, score_ge.
  destruct (Evaluated.score a) as [x|], (Evaluated.score b) as [y|];
    try (intros; exact I); try discriminate.
  destruct (Rle_dec y x); [intros; assumption|discriminate].
Qed.

Lemma score_geb_false a b : score_geb a b = false -> score_ge b a.
Proof.
  unfold score_geb, score_ge.
  destruct (Evaluated.score a) as [x|], (Evaluated.score b) as [y|];
    try (intros; exact I); try discriminate.
  destruct (Rle_dec y x); [discriminate|intros; lra].
Qed.

Lemma score_ge_trans a b c : score_ge a b -> score_ge b c -> score_ge a c.
Proof.
  unfold score_ge.
  destruct (Evaluated.score a) as [x|], (Evaluated.score b) as [y|],
    (Evaluated.score c) as [z|]; try tauto. lra.
Qed.

Lemma insert_by_score_sorted r l :
  StronglySorted score_ge l -> StronglySorted score_ge (insert_by_score r l).
Proof.
  induction l as [|x t IH]; intros Hs; simpl.
  - repeat constructor.
  - apply StronglySorted_inv in Hs. destruct Hs as [Ht Hx].
    destruct (score_geb x r) eqn:E.
    + constructor; [apply IH; assumption|].
      apply (Permutation_Forall (Permutation_sym (insert_by_score_perm r t))).
      constructor; [apply score_geb_true; assumption|assumption].
    + apply score_geb_false in E.
      constructor; [constructor; assumption|].
      constructor; [assumption|].
      apply (Forall_impl _ (P := score_ge x)); [|assumption].
      intros y Hy. apply (score_ge_trans r x y); assumption.
Qed.

Lemma sort_by_score_sorted l : StronglySorted score_ge (sort_by_score l).
Proof.
  induction l as [|r l IH]; simpl; [constructor|].
  apply insert_by_score_sorted. assumption.
Qed.

(** ** Further witnesses *)

Lemma buckets_follow_ranking_witness :
  rank_and_assign sort_by_score [P2_out; P1_out] 1 1
  = Ok {| service := assign Service [P1_out];
          standby := assign Standby [P2_out];
          remaining := [] |} /\
  score_ge P1_out P2_out.
Proof.
  split; [reflexivity|].
  destruct (buckets_follow_ranking sort_by_score sort_by_score_sorted
              [P2_out; P1_out] 1 1 _ eq_refl ltac:(lia) ltac:(lia))
    as [H _].
  apply (H {| Plan.evaluated := P1_out; Plan.assignment := Service |}
           {| Plan.evaluated := P2_out; Plan.assignment := Standby |});
    left; reflexivity.
Defined.

Lemma quotas_cover_eligible_witness :
  exists a,
    rank_and_assign sort_by_score [T1_out; T2_out] 5 5 = Ok a /\
    map Plan.evaluated (remaining a) = [T2_out] /\
    standby a = [].
Proof.
  eexists. split; [reflexivity|].
  destruct (quotas_cover_eligible sort_by_score [T1_out; T2_out] 5 5 _ eq_refl
              ltac:(lia) ltac:(lia)) as [H1 H2].
  split; [apply H1|apply H2]; simpl; lia.
Defined.

Lemma summary_metrics_total_witness :
  exists a,
    rank_and_assign sort_by_score [T1_out; T2_out] 1 0 = Ok a /\
    (fst (fst (summary_metrics a)) + snd (fst (summary_metrics a))
     + snd (summary_metrics a))%nat = 2%nat.
Proof.
  eexists. split; [reflexivity|].
  pose proof (summary_metrics_total sort_by_score [T1_out; T2_out] 1 0 _
                (fun l => Permutation_length (sort_by_score_perm l))
                eq_refl ltac:(lia) ltac:(lia)) as H.
  simpl in H. destruct H as [H _]. exact H.
Defined.

Lemma evaluate_keeps_rows_witness :
  map Evaluated.train_id [T1_out; T2_out] = map Roster.train_id [T1; T2].
Proof.
  apply (evaluate_keeps_rows no_float_of_text [T1; T2] 10 None None
           [T1_out; T2_out] eq_refl).
Defined.

Lemma slots_first_come_witness :
  Evaluated.eligible T4_out = true <->
  (candidates_before 10 None [T3; T4] 1 < 1)%nat.
Proof.
  apply (slots_first_come no_float_of_text [T3; T4] 10 None (Some one_slot)
           [T3_out; T4_out] 1 1 T4 T4_out eq_refl eq_refl eq_refl eq_refl
           eq_refl).
Defined.

Lemma more_capacity_keeps_eligible_witness :
  evaluate no_float_of_text [T3; T4] 10 None (Some two_slots)
  = Ok [T3_out; T4_out_with_slot] /\
  Evaluated.eligible T3_out = true.
Proof.
  split; [reflexivity|].
  apply (more_capacity_keeps_eligible no_float_of_text [T3; T4] 10 None
           (Some one_slot) (Some two_slots) [T3_out; T4_out]
           [T3_out; T4_out_with_slot] 0 T3_out T3_out);
    try reflexivity.
  simpl. lia.
Defined.

Lemma reason_of_eligible_witness :
  Evaluated.reason T1_out = "OK" <->
  fitness_expired 10 T1 = false /\ has_job_card None T1 = false /\
  Roster.needs_cleaning T1 = false.
Proof.
  apply (reason_of_eligible no_float_of_text [T1; T2] 10 None None
           [T1_out; T2_out] 0 T1 T1_out eq_refl eq_refl eq_refl).
Defined.

Example evaluate_eleven :
  evaluate no_float_of_text (parse_fitness parse_day_number eleven_trains) 10
    None None = Ok eleven_out.
Proof. reflexivity. Qed.

(** Among rows scored in one run with the same mileage, the ranking
    follows the branding priority. *)
Lemma score_in_ge (vs : list R) (m : R) (a b : Evaluated.row) (ba bb : Z) :
  Evaluated.score a = score_in vs ba m ->
  Evaluated.score b = score_in vs bb m ->
  score_ge a b -> (bb <= ba)%Z.
Proof.
  unfold score_ge, score_in, score_value. intros -> ->.
  destruct (or_1_fin (sample_std vs)) as (y & -> & _). simpl.
  intros H.
  assert (H' : (IZR (bb * 1000) <= IZR (ba * 1000))%R) by lra.
  apply le_IZR in H'. lia.
Qed.

Lemma rerun_preview_is_top_ten_witness :
  exists ids preview hidden h,
    rerun parse_day_number no_float_of_text sort_by_score eleven_trains 10
      None None 3 = Ok (ids, preview) /\
    List.length preview = 10%nat /\
    Permutation (preview ++ hidden) eleven_out /\
    (forall p h', In p preview -> In h' hidden -> score_ge p h') /\
    hidden = [h] /\
    Evaluated.train_id h = "E01".
Proof.
  assert (Hrun :
    rerun parse_day_number no_float_of_text sort_by_score eleven_trains 10
      None None 3
    = Ok (map Evaluated.train_id
            (head (sort_by_score
                     (select eleven_out (map Evaluated.eligible eleven_out))) 3),
          head (sort_by_score eleven_out) 10)).
  { unfold rerun. rewrite evaluate_eleven. reflexivity. }
  destruct (rerun_preview_is_top_ten sort_by_score sort_by_score_perm
              sort_by_score_sorted parse_day_number no_float_of_text
              eleven_trains 10 None None 3 _ _ Hrun)
    as (new_eval & hidden & Hev & Hlen & Hperm & Hord).
  rewrite evaluate_eleven in Hev. inversion Hev; subst new_eval. clear Hev.
  change (Nat.min 10 (List.length eleven_trains)) with 10%nat in Hlen.
  assert (Hhidden : List.length hidden = 1%nat).
  { apply Permutation_length in Hperm. rewrite length_app, Hlen in Hperm.
    change (List.length eleven_out) with 11%nat in Hperm. lia. }
  destruct hidden as [|h [|h' hidden]]; try discriminate Hhidden. clear Hhidden.
  exists (map Evaluated.train_id
            (head (sort_by_score
                     (select eleven_out (map Evaluated.eligible eleven_out))) 3)),
    (head (sort_by_score eleven_out) 10), [h], h.
  split; [exact Hrun|]. split; [exact Hlen|]. split; [exact Hperm|].
  split; [exact Hord|]. split; [reflexivity|].
  set (first := evaluated_row "E01" true (score_in (repeat 400%R 11) 1 400)
                  "OK" 1 (Fin 400)).
  assert (Hfirst : In first (head (sort_by_score eleven_out) 10 ++ [h])).
  { apply (Permutation_in first (Permutation_sym Hperm)). left. reflexivity. }
  apply in_app_or in Hfirst.
  destruct Hfirst as [Hshown|[Heq|[]]]; [|subst h; reflexivity].
  assert (Hh : In h eleven_out).
  { apply (Permutation_in h Hperm). apply in_or_app. right. left. reflexivity. }
  pose proof (Hord first h Hshown (or_introl eq_refl)) as Hge.
  cbv [eleven_out eleven map fst snd In] in Hh.
  repeat (destruct Hh as [<-|Hh]; [try reflexivity|]); try contradiction;
    exfalso;
    match type of Hge with
    | score_ge _ (evaluated_row ?id _ (score_in _ ?b _) _ _ _) =>
        pose proof (score_in_ge (repeat 400%R 11) 400 first
                      (evaluated_row id true (score_in (repeat 400%R 11) b 400)
                         "OK" b (Fin 400))
                      1 b eq_refl eq_refl Hge)
    end; lia.
Defined.

Lemma script_plans_every_train_witness :
  exists a,
    run_script to_day_number parse_day_number no_float_of_text sort_by_score
      (Some [R1; R2]) None None 1 0 "10" = Rendered a /\
    Permutation
      (map (fun p => Evaluated.train_id (Plan.evaluated p)) (plan a))
      ["R1"; "R2"] /\
    List.length (plan a) = 2%nat.
Proof.
  apply (script_plans_every_train to_day_number parse_day_number
           no_float_of_text sort_by_score sort_by_score_perm [R1; R2]
           None None 1 0 "10" 10).
  - discriminate.
  - reflexivity.
  - reflexivity.
  - lia.
  - lia.
Defined.

Lemma sample_data_consistent_witness :
  nth_error (sample_trainsets 100 [draw_valid; draw_expired]) 1
  = Some (sample_train 100 "TS02" draw_expired) /\
  fitness_expired 100 (sample_train 100 "TS02" draw_expired) = true /\
  sample_job_frame (fun _ => "low") [draw_valid; draw_expired]
  = Some (WithSeverity [("TS02", "low")]) /\
  has_job_card (Some (WithSeverity [("TS02", "low")]))
    (sample_train 100 "TS02" draw_expired) = true /\
  sample_job_frame (fun _ => "low") [draw_valid] = None /\
  open_draw draw_valid = false.
Proof.
  split; [reflexivity|].
  destruct (sample_data_consistent 100 (fun _ => "low")
              [draw_valid; draw_expired] 1
              (sample_train 100 "TS02" draw_expired) draw_expired)
    as (Hf & _ & Hj).
  - intros d' [<-|[<-|[]]]; simpl; lia.
  - reflexivity.
  - reflexivity.
  - split; [exact Hf|]. split; [reflexivity|]. split; [exact Hj|].
    split; [reflexivity|].
    destruct (sample_data_consistent 100 (fun _ => "low") [draw_valid] 0
                (sample_train 100 "TS01" draw_valid) draw_valid)
      as (_ & _ & Hnone).
    + intros d' [<-|[]]; simpl; lia.
    + reflexivity.
    + reflexivity.
    + exact Hnone.
Defined.

